(** * line_notify.py: pressure-drop detection and notification throttling

    A shallow embedding of [src/line_notify.py] and the properties of its
    decision logic: [is_night_hour], [should_notify], [send_message] and
    [analize_pressure_drop]; then of the two providers, [get_api_data] and
    [get_bme680_data_from_influxdb], and of the [__main__] block.

    Conventions of the embedding.
    - A Python [datetime] is a record of its fields; [tzinfo] is the UTC
      offset in microseconds ([None] for a naive datetime).  A [timedelta]
      is its total number of microseconds.
    - Pressures are IEEE-754 binary64 values (Python [float]), with the
      kernel's primitive floats.
    - Text is a list of characters.
    - The file [LAST_NOTIFY_FILE], the standard output and the push requests
      are the state of a small state-and-exception monad; every [print],
      every [open] and every [requests.post] of the source leaves an event
      in the trace, in program order.
    - The environment: opening the record file for reading may fail; a file
      that is absent or readable can be overwritten; the push endpoint
      answers every request, with any status code and body.  The module
      [Generic] lifts the last assumption, and the choice of a parser for
      [datetime.fromisoformat], for the properties that depend on them.
    - [analize_pressure_drop] returns [False] or [None] in the source; the
      embedding returns the branch that was taken, as a [Decision]. *)

From Stdlib Require Import ZArith List Ascii String Bool Lia.
From Stdlib Require Import Floats.
Import ListNotations.

Local Open Scope Z_scope.

(** ** Data *)

Definition str := list ascii.

Definition lit (s : string) : str := list_ascii_of_string s.

Definition timedelta := Z.

Record datetime := mkdatetime {
  year : Z;
  month : Z;
  day : Z;
  hour : Z;
  minute : Z;
  second : Z;
  microsecond : Z;
  tzinfo : option timedelta
}.

(** [timedelta(minutes=m)] *)
Definition timedelta_minutes (m : Z) : timedelta := m * 60000000.

(** [timezone(timedelta(hours=9))], the zone every provider converts to. *)
Definition JST : timedelta := 9 * 3600000000.

(** The text of the push message: a fixed warning followed by
    [current_pressure] formatted with [:.1f]. *)
Inductive message :=
| DropAlert (pressure : float).

(** The lines the program prints, one constructor per [print] of the source. *)
Inductive line :=
| ErrCurrentNone                       (* "Error: Current data is None" *)
| ErrPreviousNone                      (* "Error: Previous data is None" *)
| TimeSpan (past cur : datetime)       (* f"{jst_time_30min_ago} -> {current_jst_time}" *)
| PressureSpan (past cur : float)      (* pressure_30min_ago -> current_pressure *)
| Delta (d : float)                    (* delta_pressure *)
| NightSkip                            (* skipped because it is night *)
| CooldownSkip                         (* skipped: notified within 6 hours *)
| NoBigChange                          (* no large change of pressure *)
| Echo (s : str)                       (* print(last_notify_time_str) *)
| EchoType                             (* print(type(last_notify_time_str)) *)
| Sent (uid : str) (status : Z) (body : str).

Inductive event :=
| Print (l : line)
| FileRead                             (* open(LAST_NOTIFY_FILE, "r") *)
| FileWrite (s : str)                  (* open(LAST_NOTIFY_FILE, "w"); f.write(s) *)
| Post (uid : str) (text : message).   (* requests.post(push endpoint) *)

(** The record file: it does not exist, it holds a text, or opening it
    raises an [OSError] other than [FileNotFoundError] (no permission, a
    directory in its place). *)
Inductive fs :=
| Missing
| Present (content : str)
| Unreadable.

Inductive exn :=
| FileNotFoundError
| ValueError
| TypeError
| OSError.

Inductive Decision :=
| Suppressed (reason : string)
| Notify (text : message)
| NoChange.

(** ** The monad of effects *)

Record world := mkworld {
  file : fs;
  out : list event
}.

Inductive result (A : Type) :=
| Ret (a : A)
| Raise (e : exn).
Arguments Ret {A} a.
Arguments Raise {A} e.

Definition M (A : Type) := world -> result A * world.

Definition ret {A} (a : A) : M A := fun w => (Ret a, w).

Definition raise {A} (e : exn) : M A := fun w => (Raise e, w).

Definition bind {A B} (m : M A) (k : A -> M B) : M B :=
  fun w => match m w with
           | (Ret a, w') => k a w'
           | (Raise e, w') => (Raise e, w')
           end.

(** [try: body except handled: pass], with the value [dflt] standing for
    falling out of the [except] clause. *)
Definition try_except {A} (body : M A) (handled : exn -> bool) (dflt : A) : M A :=
  fun w => match body w with
           | (Ret a, w') => (Ret a, w')
           | (Raise e, w') => if handled e then (Ret dflt, w') else (Raise e, w')
           end.

Notation "x <- m ;; k" := (bind m (fun x => k))
  (at level 61, m at next level, right associativity).
Notation "m ;;; k" := (bind m (fun _ => k))
  (at level 61, right associativity).

Definition emit (e : event) : M unit :=
  fun w => (Ret tt, mkworld (file w) (out w ++ [e])).

Definition print (l : line) : M unit := emit (Print l).

(** [open(LAST_NOTIFY_FILE, "r")] followed by [f.read()] *)
Definition open_read : M str :=
  emit FileRead ;;;
  fun w => match file w with
           | Missing => (Raise FileNotFoundError, w)
           | Present s => (Ret s, w)
           | Unreadable => (Raise OSError, w)
           end.

(** [open(LAST_NOTIFY_FILE, "w")] followed by [f.write(s)]: a full overwrite *)
Definition open_write (s : str) : M unit :=
  fun w => match file w with
           | Unreadable => (Raise OSError, w)
           | _ => (Ret tt, mkworld (Present s) (out w ++ [FileWrite s]))
           end.

(** ** [is_night_hour] *)

Definition is_night_hour (jst_time : datetime) : bool :=
  (0 <=? hour jst_time) && (hour jst_time <? 6).

(** ** The [datetime] library, as far as the program uses it

    [datetime.isoformat], [datetime.fromisoformat], [datetime.__sub__] and
    [str.strip] are library code; they follow the reference implementation
    [Lib/datetime.py] (CPython 3.7 to 3.10), with [int] accepting ASCII
    digits only and [strip] removing the white space below code point
    256. *)

Definition obind {A B} (o : option A) (k : A -> option B) : option B :=
  match o with Some a => k a | None => None end.

Notation "x <-? o ;; k" := (obind o (fun x => k))
  (at level 61, o at next level, right associativity).

Definition guard (b : bool) : option unit := if b then Some tt else None.

Definition digit_char (d : Z) : ascii :=
  match d with
  | 0 => "0" | 1 => "1" | 2 => "2" | 3 => "3" | 4 => "4"
  | 5 => "5" | 6 => "6" | 7 => "7" | 8 => "8" | _ => "9"
  end%char.

(** The value of a decimal digit, [ord(c) - ord("0")]. *)
Definition digit_val (c : ascii) : option Z :=
  let n := Z.of_nat (nat_of_ascii c) in
  if (48 <=? n) && (n <=? 57) then Some (n - 48) else None.

(** ["%0wd" % n] for [0 <= n < 10^w], the only arguments [isoformat] passes
    for a datetime that the constructor accepted. *)
Fixpoint fmt_d (w : nat) (n : Z) : str :=
  match w with
  | O => []
  | S w' => fmt_d w' (n / 10) ++ [digit_char (n mod 10)]
  end.

Fixpoint int_of_digits (acc : Z) (s : str) : option Z :=
  match s with
  | [] => Some acc
  | c :: s' =>
      match digit_val c with
      | Some d => int_of_digits (acc * 10 + d) s'
      | None => None
      end
  end.

(** [int(s)]: [None] stands for [ValueError]. *)
Definition int_ (s : str) : option Z :=
  match s with
  | [] => None
  | _ => int_of_digits 0 s
  end.

(** [s[a:b]] and [s[a:]] *)
Definition slice (a b : nat) (s : str) : str := firstn (b - a) (skipn a s).
Definition slice_from (a : nat) (s : str) : str := skipn a s.

(** [s.find(c)]: [None] stands for [-1]. *)
Fixpoint find (c : ascii) (s : str) : option nat :=
  match s with
  | [] => None
  | x :: s' => if Ascii.eqb x c then Some O else option_map S (find c s')
  end.

Definition isspace (c : ascii) : bool :=
  let n := nat_of_ascii c in
  ((9 <=? n) && (n <=? 13) || (28 <=? n) && (n <=? 32)
   || (n =? 133) || (n =? 160))%nat.

Fixpoint lstrip (s : str) : str :=
  match s with
  | [] => []
  | c :: s' => if isspace c then lstrip s' else s
  end.

Definition strip (s : str) : str := rev (lstrip (rev (lstrip s))).

(** *** Calendar *)

Definition is_leap (y : Z) : bool :=
  (y mod 4 =? 0) && (negb (y mod 100 =? 0) || (y mod 400 =? 0)).

Definition DAYS_IN_MONTH : list Z :=
  [-1; 31; 28; 31; 30; 31; 30; 31; 31; 30; 31; 30; 31].

Definition DAYS_BEFORE_MONTH : list Z :=
  [-1; 0; 31; 59; 90; 120; 151; 181; 212; 243; 273; 304; 334].

Definition days_before_year (y : Z) : Z :=
  let y := y - 1 in y * 365 + y / 4 - y / 100 + y / 400.

Definition days_in_month (y m : Z) : Z :=
  if (m =? 2) && is_leap y then 29 else nth (Z.to_nat m) DAYS_IN_MONTH 0.

Definition days_before_month (y m : Z) : Z :=
  nth (Z.to_nat m) DAYS_BEFORE_MONTH 0 + (if (2 <? m) && is_leap y then 1 else 0).

Definition ymd2ord (y m d : Z) : Z :=
  days_before_year y + days_before_month y m + d.

Definition toordinal (t : datetime) : Z := ymd2ord (year t) (month t) (day t).

Definition DAY : timedelta := 86400000000.

(** The checks of the [datetime] and [timezone] constructors. *)
Definition valid_offset (off : timedelta) : bool :=
  (- DAY <? off) && (off <? DAY).

Definition valid_datetime (t : datetime) : bool :=
  (1 <=? year t) && (year t <=? 9999) &&
  (1 <=? month t) && (month t <=? 12) &&
  (1 <=? day t) && (day t <=? days_in_month (year t) (month t)) &&
  (0 <=? hour t) && (hour t <=? 23) &&
  (0 <=? minute t) && (minute t <=? 59) &&
  (0 <=? second t) && (second t <=? 59) &&
  (0 <=? microsecond t) && (microsecond t <=? 999999) &&
  match tzinfo t with
  | None => true
  | Some off => valid_offset off
  end.

(** *** [datetime.__sub__]

    The difference of the wall-clock fields, corrected by the two offsets
    when both operands are aware; [None] stands for the [TypeError] of
    mixing a naive and an aware operand. *)
Definition wall_microseconds (t : datetime) : Z :=
  (toordinal t * 86400 + (second t + minute t * 60 + hour t * 3600)) * 1000000
  + microsecond t.

Definition datetime_sub (a b : datetime) : option timedelta :=
  let base := wall_microseconds a - wall_microseconds b in
  match tzinfo a, tzinfo b with
  | None, None => Some base
  | Some myoff, Some otoff => Some (base + otoff - myoff)
  | _, _ => None
  end.

(** *** [datetime.isoformat] *)

Definition format_time (hh mm ss us : Z) : str :=
  fmt_d 2 hh ++ lit ":" ++ fmt_d 2 mm ++ lit ":" ++ fmt_d 2 ss
  ++ (if us =? 0 then [] else lit "." ++ fmt_d 6 us).

Definition format_offset (off : option timedelta) : str :=
  match off with
  | None => []
  | Some off =>
      let sign := if off <? 0 then lit "-" else lit "+" in
      let off := if off <? 0 then - off else off in
      let hh := off / 3600000000 in
      let mm := (off mod 3600000000) / 60000000 in
      let ss := (off mod 3600000000) mod 60000000 in
      sign ++ fmt_d 2 hh ++ lit ":" ++ fmt_d 2 mm
      ++ (if ss =? 0 then []
          else lit ":" ++ fmt_d 2 (ss / 1000000)
               ++ (if ss mod 1000000 =? 0 then []
                   else lit "." ++ fmt_d 6 (ss mod 1000000)))
  end.

Definition isoformat (t : datetime) : str :=
  fmt_d 4 (year t) ++ lit "-" ++ fmt_d 2 (month t) ++ lit "-" ++ fmt_d 2 (day t)
  ++ lit "T"
  ++ format_time (hour t) (minute t) (second t) (microsecond t)
  ++ format_offset (tzinfo t).

(** *** [datetime.fromisoformat]

    The reference parser.  The parser built into an interpreter differs
    from it on texts the program never writes: later versions take a
    trailing [Z] and the compact forms, and reject a date that is followed
    by a lone separator.  The properties that turn on which texts parse are
    stated in [Generic], for every parser. *)

Definition char_is (c : ascii) (o : option ascii) : bool :=
  match o with
  | Some x => Ascii.eqb x c
  | None => false
  end.

Definition parse_isoformat_date (dtstr : str) : option (Z * Z * Z) :=
  y <-? int_ (slice 0 4 dtstr) ;;
  _ <-? guard (char_is "-" (nth_error dtstr 4)) ;;
  m <-? int_ (slice 5 7 dtstr) ;;
  _ <-? guard (char_is "-" (nth_error dtstr 7)) ;;
  d <-? int_ (slice 8 10 dtstr) ;;
  Some (y, m, d).

(** The loop over [HH[:MM[:SS]]] of [_parse_hh_mm_ss_ff]: [n] components
    may still be read from [rest]; the result is the components read and
    the text left after them. *)
Fixpoint parse_comps (n : nat) (rest : str) : option (list Z * str) :=
  match n with
  | O => Some ([], rest)
  | S n' =>
      _ <-? guard (2 <=? List.length rest)%nat ;;
      v <-? int_ (firstn 2 rest) ;;
      match skipn 2 rest, n' with
      | [], _ => Some ([v], [])
      | next, O => Some ([v], next)
      | c :: next, _ =>
          _ <-? guard (Ascii.eqb c ":") ;;
          r <-? parse_comps n' next ;;
          Some (v :: fst r, snd r)
      end
  end.

Definition parse_hh_mm_ss_ff (tstr : str) : option (Z * Z * Z * Z) :=
  r <-? parse_comps 3 tstr ;;
  let comps := fst r in
  let hh := nth 0 comps 0 in
  let mm := nth 1 comps 0 in
  let ss := nth 2 comps 0 in
  match snd r with
  | [] => Some (hh, mm, ss, 0)
  | c :: frac =>
      _ <-? guard (Ascii.eqb c ".") ;;
      _ <-? guard ((List.length frac =? 3) || (List.length frac =? 6))%nat ;;
      us <-? int_ frac ;;
      Some (hh, mm, ss, if (List.length frac =? 3)%nat then us * 1000 else us)
  end.

Definition parse_isoformat_time (tstr : str)
  : option (Z * Z * Z * Z * option timedelta) :=
  _ <-? guard (2 <=? List.length tstr)%nat ;;
  let tz_pos := match find "-" tstr with
                | Some i => Some i
                | None => find "+" tstr
                end in
  let timestr := match tz_pos with
                 | Some i => firstn i tstr
                 | None => tstr
                 end in
  tc <-? parse_hh_mm_ss_ff timestr ;;
  match tz_pos with
  | None => Some (tc, None)
  | Some i =>
      let tzstr := slice_from (S i) tstr in
      _ <-? guard ((List.length tzstr =? 5) || (List.length tzstr =? 8)
                   || (List.length tzstr =? 15))%nat ;;
      z <-? parse_hh_mm_ss_ff tzstr ;;
      let '(zh, zm, zs, zus) := z in
      if (zh =? 0) && (zm =? 0) && (zs =? 0) && (zus =? 0)
      then Some (tc, Some 0)
      else
        let tzsign := if char_is "-" (nth_error tstr i) then -1 else 1 in
        let td := (zh * 3600 + zm * 60 + zs) * 1000000 + zus in
        _ <-? guard (valid_offset (tzsign * td)) ;;
        Some (tc, Some (tzsign * td))
  end.

(** [None] stands for [ValueError]. *)
Definition fromisoformat (date_string : str) : option datetime :=
  let dstr := slice 0 10 date_string in
  let tstr := slice_from 11 date_string in
  dc <-? parse_isoformat_date dstr ;;
  tc <-? match tstr with
         | [] => Some (0, 0, 0, 0, None)
         | _ => parse_isoformat_time tstr
         end ;;
  let '(y, m, d) := dc in
  let '(hh, mm, ss, us, tz) := tc in
  let t := mkdatetime y m d hh mm ss us tz in
  if valid_datetime t then Some t else None.

(** ** The program *)

Definition lift {A} (e : exn) (o : option A) : M A :=
  match o with
  | Some a => ret a
  | None => raise e
  end.

(** [except (FileNotFoundError, ValueError)] *)
Definition handled (e : exn) : bool :=
  match e with
  | FileNotFoundError | ValueError => true
  | TypeError | OSError => false
  end.

Definition is_empty (s : str) : bool :=
  match s with
  | [] => true
  | _ => false
  end.

(** Lines 156 to 164 of [should_notify]: the record is opened, read,
    stripped, echoed and parsed. *)
Definition read_last_notify_time : M datetime :=
  raw <- open_read ;;
  let last_notify_time_str := strip raw in
  print (Echo last_notify_time_str) ;;;
  print EchoType ;;;
  if is_empty last_notify_time_str then raise ValueError
  else lift ValueError (fromisoformat last_notify_time_str).

(** [should_notify].  The body of the [try] yields [true] where the source
    leaves the function with [return False]. *)
Definition should_notify (current_jst_time : datetime) (threshold : Z) : M bool :=
  throttled <- try_except
    (last_notify_time <- read_last_notify_time ;;
     elapsed <- lift TypeError (datetime_sub current_jst_time last_notify_time) ;;
     ret (elapsed <? timedelta_minutes threshold))
    handled false ;;
  if throttled then ret false
  else open_write (isoformat current_jst_time) ;;; ret true.

(** The cooldown store of the specification.  [readLastNotified] is the
    reading half of [should_notify] under the same [except] clause;
    [writeLastNotified] is its writing half. *)
Definition readLastNotified : M (option datetime) :=
  try_except (t <- read_last_notify_time ;; ret (Some t)) handled None.

Definition writeLastNotified (instant : datetime) : M unit :=
  open_write (isoformat instant).

Section Program.

(** [USER_IDS] is the module-level list of recipients; [requests_post] is
    the push endpoint, answering a request with a status code and a body. *)
Variable USER_IDS : list str.
Variable requests_post : str -> message -> Z * str.

Fixpoint send_loop (uids : list str) (msg_text : message) : M unit :=
  match uids with
  | [] => ret tt
  | uid :: rest =>
      let uid := strip uid in
      (if is_empty uid then ret tt
       else
         emit (Post uid msg_text) ;;;
         let res := requests_post uid msg_text in
         print (Sent uid (fst res) (snd res))) ;;;
      send_loop rest msg_text
  end.

Definition send_message (msg_text : message) : M unit :=
  send_loop USER_IDS msg_text.

Definition analize_pressure_drop
    (current_jst_time : option datetime) (current_pressure : option float)
    (jst_time_30min_ago : option datetime) (pressure_30min_ago : option float)
  : M Decision :=
  match current_jst_time, current_pressure with
  | Some cur_time, Some cur_p =>
      match jst_time_30min_ago, pressure_30min_ago with
      | Some past_time, Some past_p =>
          let delta_pressure := (cur_p - past_p)%float in
          print (TimeSpan past_time cur_time) ;;;
          print (PressureSpan past_p cur_p) ;;;
          print (Delta delta_pressure) ;;;
          if is_night_hour cur_time then
            print NightSkip ;;; ret (Suppressed "night-hours")
          else if (delta_pressure <? -1.0)%float then
            ok <- should_notify cur_time 360 ;;
            if ok then
              let text := DropAlert cur_p in
              send_message text ;;; ret (Notify text)
            else
              print CooldownSkip ;;; ret (Suppressed "cooldown-active")
          else
            print NoBigChange ;;; ret NoChange
      | _, _ => print ErrPreviousNone ;;; ret (Suppressed "missing-data")
      end
  | _, _ => print ErrCurrentNone ;;; ret (Suppressed "missing-data")
  end.

(** *** Evaluation cycles

    One run of the program is one call of [analize_pressure_drop] on what
    the two providers returned; the next run finds the record file as this
    one left it and starts with an empty trace. *)
Record cycle := mkcycle {
  current_jst_time : option datetime;
  current_pressure : option float;
  jst_time_30min_ago : option datetime;
  pressure_30min_ago : option float
}.

Definition run_cycle (c : cycle) (f : fs) : result Decision * world :=
  analize_pressure_drop (current_jst_time c) (current_pressure c)
    (jst_time_30min_ago c) (pressure_30min_ago c) (mkworld f []).

Fixpoint run_cycles (cs : list cycle) (f : fs) : list (result Decision * world) :=
  match cs with
  | [] => []
  | c :: cs' =>
      let r := run_cycle c f in
      r :: run_cycles cs' (file (snd r))
  end.

End Program.

(** A push request was issued in the trace. *)
Definition is_post (e : event) : bool :=
  match e with
  | Post _ _ => true
  | _ => false
  end.

Definition sent (tr : list event) : bool := existsb is_post tr.

(** A run notifies when it issues a push request or ends with the decision
    [Notify]. *)
Definition notifies (r : result Decision * world) : Prop :=
  sent (out (snd r)) = true \/ exists text, fst r = Ret (Notify text).

(** Every [datetime] object satisfies the constructor's checks; a cycle is
    well formed when its current time, if present, does. *)
Definition cycle_wf (c : cycle) : bool :=
  match current_jst_time c with
  | Some t => valid_datetime t
  | None => true
  end.

(** ** Notions used in the statements and proofs *)

(** The events of [send_message], as a function of the recipients. *)
Section SendEvents.

Variable requests_post : str -> message -> Z * str.

Fixpoint send_events (uids : list str) (msg_text : message) : list event :=
  match uids with
  | [] => []
  | uid :: rest =>
      (if is_empty (strip uid) then []
       else [Post (strip uid) msg_text;
             Print (Sent (strip uid) (fst (requests_post (strip uid) msg_text))
                      (snd (requests_post (strip uid) msg_text)))])
      ++ send_events rest msg_text
  end.

End SendEvents.

(** The outcome of [should_notify] on a record that was read and parsed. *)
Definition parsed_record (raw : str) : option datetime :=
  if is_empty (strip raw) then None else fromisoformat (strip raw).

(** The three lines printed before any rule is consulted. *)
Definition preamble (cur : datetime) (cp : float) (past : datetime) (pp : float)
  : list event :=
  [Print (TimeSpan past cur); Print (PressureSpan pp cp);
   Print (Delta (cp - pp)%float)].

(** Auxiliary notions for the ISO text. *)
Definition is_digit (c : ascii) : bool :=
  match digit_val c with
  | Some _ => true
  | None => false
  end.

(** The characters of a time or an offset without its sign. *)
Definition time_char (c : ascii) : bool :=
  is_digit c || Ascii.eqb c ":" || Ascii.eqb c ".".

(** The offset without its sign, for its absolute value [a]. *)
Definition offset_body (a : Z) : str :=
  let hh := a / 3600000000 in
  let mm := (a mod 3600000000) / 60000000 in
  let ss := (a mod 3600000000) mod 60000000 in
  fmt_d 2 hh ++ lit ":" ++ fmt_d 2 mm
  ++ (if ss =? 0 then []
      else lit ":" ++ fmt_d 2 (ss / 1000000)
           ++ (if ss mod 1000000 =? 0 then []
               else lit "." ++ fmt_d 6 (ss mod 1000000))).

Definition ends_with_digit (s : str) : Prop :=
  exists b c, s = b ++ [c] /\ is_digit c = true.

(** What a run that wrote the record file at time [t] establishes: the file
    holds [t], and a timestamp it held before lies at least 360 minutes
    back. *)
Definition advances (f : fs) (t : datetime) (f' : fs) : Prop :=
  f' = Present (isoformat t)
  /\ forall raw last,
      f = Present raw -> parsed_record raw = Some last ->
      exists d, datetime_sub t last = Some d /\ timedelta_minutes 360 <= d.

(** The record file after a notification at [ti]: it holds a time not
    earlier than [ti]. *)
Definition holds_since (ti : datetime) (f : fs) : Prop :=
  exists u d, f = Present (isoformat u) /\ valid_datetime u = true
              /\ datetime_sub u ti = Some d /\ 0 <= d.

(** ** Sample inputs *)

Definition sample_ids : list str := [lit " U1 "; lit ""; lit "U2"].

Definition sample_post (uid : str) (text : message) : Z * str := (200, lit "{}").

(** 2024-03-05 14:07:09 JST, the sample 30 minutes before it, a time in the
    night and a time more than six hours later. *)
Definition sample_day : datetime := mkdatetime 2024 3 5 14 7 9 0 (Some JST).
Definition sample_past : datetime := mkdatetime 2024 3 5 13 37 9 0 (Some JST).
Definition sample_night : datetime := mkdatetime 2024 3 5 3 0 0 0 (Some JST).
Definition sample_soon : datetime := mkdatetime 2024 3 5 16 7 9 0 (Some JST).
Definition sample_later : datetime := mkdatetime 2024 3 5 20 7 10 0 (Some JST).

Definition sample_cycle (t : datetime) (cur_p past_p : float) : cycle :=
  mkcycle (Some t) (Some cur_p) (Some sample_past) (Some past_p).

Definition sample_cycles : list cycle :=
  [sample_cycle sample_day 1010.0 1012.0;
   sample_cycle sample_soon 1008.0 1010.0;
   sample_cycle sample_later 1005.0 1008.0].

Definition sample_notify_run : result Decision * world :=
  analize_pressure_drop sample_ids sample_post
    (Some sample_day) (Some 1010.0%float) (Some sample_past) (Some 1012.0%float)
    (mkworld Missing []).

(** ** The two providers and the entry point

    The rest of [line_notify.py]: the conversion to JST with
    [datetime.astimezone], [get_api_data],
    [get_bme680_data_from_influxdb] and the [__main__] block. *)

(** *** [datetime.astimezone]

    After [Lib/datetime.py]: [_ord2ymd], [datetime.__add__] and
    [datetime.astimezone] with [timezone.fromutc]; [None] stands for
    [OverflowError]. *)

Definition DI400Y : Z := 146097.
Definition DI100Y : Z := 36524.
Definition DI4Y : Z := 1461.
Definition MAXORDINAL : Z := 3652059.

Definition ord2ymd (n : Z) : Z * Z * Z :=
  let n := n - 1 in
  let n400 := n / DI400Y in
  let n := n mod DI400Y in
  let year := n400 * 400 + 1 in
  let n100 := n / DI100Y in
  let n := n mod DI100Y in
  let n4 := n / DI4Y in
  let n := n mod DI4Y in
  let n1 := n / 365 in
  let n := n mod 365 in
  let year := year + n100 * 100 + n4 * 4 + n1 in
  if (n1 =? 4) || (n100 =? 4) then (year - 1, 12, 31)
  else
    let leapyear := (n1 =? 3) && (negb (n4 =? 24) || (n100 =? 3)) in
    let month := Z.shiftr (n + 50) 5 in
    let preceding :=
      nth (Z.to_nat month) DAYS_BEFORE_MONTH 0
      + (if (2 <? month) && leapyear then 1 else 0) in
    if n <? preceding then
      let month := month - 1 in
      let preceding :=
        preceding - (nth (Z.to_nat month) DAYS_IN_MONTH 0
                     + (if (month =? 2) && leapyear then 1 else 0)) in
      (year, month, n - preceding + 1)
    else (year, month, n - preceding + 1).

(** [t + delta] *)
Definition datetime_add (t : datetime) (delta : timedelta) : option datetime :=
  let total := wall_microseconds t + delta in
  let days := total / DAY in
  let seconds := (total mod DAY) / 1000000 in
  let microseconds := (total mod DAY) mod 1000000 in
  let hh := seconds / 3600 in
  let mm := (seconds mod 3600) / 60 in
  let ss := (seconds mod 3600) mod 60 in
  if (0 <? days) && (days <=? MAXORDINAL) then
    let '(y, m, d) := ord2ymd days in
    Some (mkdatetime y m d hh mm ss microseconds (tzinfo t))
  else None.

(** [t.replace(tzinfo=tz)] *)
Definition replace_tzinfo (t : datetime) (tz : option timedelta) : datetime :=
  mkdatetime (year t) (month t) (day t) (hour t) (minute t) (second t)
    (microsecond t) tz.

(** [t.astimezone(timezone(tz))].  A naive [t] is taken to be in the
    system's zone, whose offset at [t] is [local_utcoffset t]. *)
Definition astimezone (local_utcoffset : datetime -> timedelta)
    (tz : timedelta) (t : datetime) : option datetime :=
  let myoffset := match tzinfo t with
                  | Some off => off
                  | None => local_utcoffset t
                  end in
  utc <-? datetime_add t (- myoffset) ;;
  datetime_add (replace_tzinfo utc (Some tz)) tz.

(** *** [get_api_data] *)

(** [s.replace("Z", "+00:00")] *)
Fixpoint replace_Z (s : str) : str :=
  match s with
  | [] => []
  | c :: s' =>
      if Ascii.eqb c "Z" then lit "+00:00" ++ replace_Z s'
      else c :: replace_Z s'
  end.

(** What [res.json()] gives when it is an object: the value under
    ["timestamp"] when it is a string ([None] when the key is missing or the
    value is not a string: [replace] then raises [AttributeError]), and the
    number under ["pressure"] ([None] when the key is missing or null). *)
Record payload := mkpayload {
  timestamp : option str;
  pressure : option float
}.

(** The answer of [requests.get(URL)]: [json] is [None] when the body is
    not a JSON object. *)
Record response := mkresponse {
  status_code : Z;
  json : option payload
}.

(** The exception [get_api_data] catches and prints. *)
Inductive api_failure :=
| RequestFailed                 (* requests.get raised *)
| BadStatus (code : Z)          (* Exception(f"Error: {res.status_code}") *)
| BadBody                       (* res.json() or data.get raised *)
| NoTimestamp                   (* AttributeError of replace *)
| BadTimestamp                  (* ValueError of fromisoformat *)
| OutOfRange.                   (* OverflowError of astimezone *)

(** What the providers do before the evaluation starts. *)
Inductive provider_event :=
| HttpGet                       (* requests.get(URL) *)
| ApiStatus (code : Z)          (* print(f"Error: {res.status_code}") *)
| ApiError (why : api_failure)  (* print(f"Error: {e}") *)
| InfluxQuery.                  (* client.query_api().query(query) *)

Section Providers.

(** The offset of the system's zone, for a naive datetime. *)
Variable local_utcoffset : datetime -> timedelta.

(** [reply] is [None] when [requests.get] raises.  The result is the
    returned tuple, or [None] where the function falls out of its [except]
    clause. *)
Definition get_api_data (reply : option response)
  : option (datetime * option float) * list provider_event :=
  match reply with
  | None => (None, [HttpGet; ApiError RequestFailed])
  | Some res =>
      if negb (status_code res =? 200) then
        (None, [HttpGet; ApiStatus (status_code res);
                ApiError (BadStatus (status_code res))])
      else
        match json res with
        | None => (None, [HttpGet; ApiError BadBody])
        | Some data =>
            let current_pressure := pressure data in
            match timestamp data with
            | None => (None, [HttpGet; ApiError NoTimestamp])
            | Some current_time_utc_str =>
                match fromisoformat (replace_Z current_time_utc_str) with
                | None => (None, [HttpGet; ApiError BadTimestamp])
                | Some current_time_utc =>
                    match astimezone local_utcoffset JST current_time_utc with
                    | None => (None, [HttpGet; ApiError OutOfRange])
                    | Some current_time_jst =>
                        (Some (current_time_jst, current_pressure), [HttpGet])
                    end
                end
            end
        end
  end.

(** *** [get_bme680_data_from_influxdb] *)

Record flux_record := mkflux_record {
  get_time : datetime;
  get_value : option float
}.

(** A table of the query result, as its [records]. *)
Definition flux_table := list flux_record.

(** The two nested [for] loops: the first record of the first table that
    has one. *)
Fixpoint first_record (result : list flux_table) : option flux_record :=
  match result with
  | [] => None
  | table :: rest =>
      match table with
      | record :: _ => Some record
      | [] => first_record rest
      end
  end.

(** How the function ends: it returns a tuple, it returns [None] (no
    record), or the conversion raises [OverflowError]. *)
Inductive influx_outcome :=
| Sample (time_jst : datetime) (pressure : option float)
| NoSample
| ConversionOverflow.

Definition get_bme680_data_from_influxdb (result : list flux_table)
  : influx_outcome :=
  match first_record result with
  | None => NoSample
  | Some record =>
      match astimezone local_utcoffset JST (get_time record) with
      | Some time_jst => Sample time_jst (get_value record)
      | None => ConversionOverflow
      end
  end.

(** *** The [__main__] block *)

(** How a run of the script ends: [analize_pressure_drop] was called and
    ended with [r], or the script stopped before the call. *)
Inductive main_outcome :=
| Evaluated (r : result Decision)
| UnpackError                   (* TypeError: cannot unpack None *)
| QueryError                    (* the query raised *)
| OverflowError.

Variable USER_IDS : list str.
Variable requests_post : str -> message -> Z * str.

(** [reply] is the answer of the sensor API, [query] the result of the
    query ([None] when it raises) and [f] the record file.  The result is
    what the providers did, how the script ended, and the file and trace of
    the evaluation. *)
Definition main (reply : option response) (query : option (list flux_table))
    (f : fs) : list provider_event * main_outcome * world :=
  let idle := mkworld f [] in
  match get_api_data reply with
  | (None, log) => (log, UnpackError, idle)
  | (Some (current_jst_time, current_pressure), log) =>
      let log := log ++ [InfluxQuery] in
      match query with
      | None => (log, QueryError, idle)
      | Some result =>
          match get_bme680_data_from_influxdb result with
          | NoSample => (log, UnpackError, idle)
          | ConversionOverflow => (log, OverflowError, idle)
          | Sample jst_time_30min_ago pressure_30min_ago =>
              let r := analize_pressure_drop USER_IDS requests_post
                         (Some current_jst_time) current_pressure
                         (Some jst_time_30min_ago) pressure_30min_ago idle in
              (log, Evaluated (fst r), snd r)
          end
      end
  end.

End Providers.

(** *** Notions used in the further statements *)

(** The month and the day of [_ord2ymd], for the day [r] of a year that is
    leap when [leap]. *)
Definition month_day (leap : bool) (r : Z) : Z * Z :=
  let month := Z.shiftr (r + 50) 5 in
  let preceding :=
    nth (Z.to_nat month) DAYS_BEFORE_MONTH 0
    + (if (2 <? month) && leap then 1 else 0) in
  if r <? preceding then
    let month := month - 1 in
    let preceding :=
      preceding - (nth (Z.to_nat month) DAYS_IN_MONTH 0
                   + (if (month =? 2) && leap then 1 else 0)) in
    (month, r - preceding + 1)
  else (month, r - preceding + 1).

(** The offset [astimezone] takes the datetime to have. *)
Definition own_offset (local_utcoffset : datetime -> timedelta) (t : datetime)
  : timedelta :=
  match tzinfo t with
  | Some off => off
  | None => local_utcoffset t
  end.

(** The text of a UTC datetime with the suffix [Z], as the sensor API
    writes it. *)
Definition utc_text (t : datetime) : str :=
  isoformat (replace_tzinfo t None) ++ lit "Z".

(** The recipients of the push requests of a trace, in order. *)
Definition posted (tr : list event) : list str :=
  flat_map (fun e => match e with
                     | Post uid _ => [uid]
                     | _ => []
                     end) tr.

(** *** Sample inputs of the providers *)

(** A system whose zone is UTC. *)
Definition sample_zone (t : datetime) : timedelta := 0.

(** 05:07:09 UTC is 14:07:09 JST; 18:00 UTC is 03:00 JST. *)
Definition sample_utc : datetime := mkdatetime 2024 3 5 5 7 9 0 (Some 0).
Definition sample_naive : datetime := mkdatetime 2024 3 5 5 7 9 0 None.
Definition sample_utc_evening : datetime := mkdatetime 2024 3 5 18 0 0 0 (Some 0).

Definition sample_reply : response :=
  mkresponse 200
    (Some (mkpayload (Some (lit "2024-03-05T05:07:09Z")) (Some 1010.0%float))).

(** An empty table, then a table whose record is 30 minutes old. *)
Definition sample_result : list flux_table :=
  [[]; [mkflux_record (mkdatetime 2024 3 5 4 37 9 0 (Some 0)) (Some 1012.0%float)]].

Definition sample_empty_result : list flux_table := [[]; []].

Definition sample_evaluation : result Decision * world :=
  analize_pressure_drop sample_ids sample_post
    (Some sample_day) (Some 1010.0%float) (Some sample_past) (Some 1012.0%float)
    (mkworld Missing []).

(** ** The program over any parser and any endpoint

    Two library calls behave in more ways than the embedding above lets
    them.  [datetime.fromisoformat] accepts different texts in different
    versions of the interpreter; [requests.post] raises when the request
    cannot be made, and [send_message] does not catch that exception.  The
    module [Generic] is the program once more, line by line, with the parser
    of the interpreter and an endpoint that answers or raises as its
    parameters.  The definitions above are its instance at the reference
    parser and an endpoint that always answers. *)

(** [requests.post]: the answer (status code and body), or the exception
    raised. *)
Definition endpoint := str -> message -> result (Z * str).

Definition answering (requests_post : str -> message -> Z * str) : endpoint :=
  fun uid text => Ret (requests_post uid text).

(** A library call that returns or raises, without touching the file or
    the trace. *)
Definition call {A} (r : result A) : M A := fun w => (r, w).

Module Generic.

Section Program.

(** [datetime.fromisoformat]; [None] stands for [ValueError]. *)
Variable fromisoformat : str -> option datetime.

Definition read_last_notify_time : M datetime :=
  raw <- open_read ;;
  let last_notify_time_str := strip raw in
  print (Echo last_notify_time_str) ;;;
  print EchoType ;;;
  if is_empty last_notify_time_str then raise ValueError
  else lift ValueError (fromisoformat last_notify_time_str).

Definition should_notify (current_jst_time : datetime) (threshold : Z) : M bool :=
  throttled <- try_except
    (last_notify_time <- read_last_notify_time ;;
     elapsed <- lift TypeError (datetime_sub current_jst_time last_notify_time) ;;
     ret (elapsed <? timedelta_minutes threshold))
    handled false ;;
  if throttled then ret false
  else open_write (isoformat current_jst_time) ;;; ret true.

Definition readLastNotified : M (option datetime) :=
  try_except (t <- read_last_notify_time ;; ret (Some t)) handled None.

Variable USER_IDS : list str.
Variable requests_post : endpoint.

(** The request is issued, then it is answered or raises; the exception
    leaves the loop and the function. *)
Fixpoint send_loop (uids : list str) (msg_text : message) : M unit :=
  match uids with
  | [] => ret tt
  | uid :: rest =>
      let uid := strip uid in
      (if is_empty uid then ret tt
       else
         emit (Post uid msg_text) ;;;
         res <- call (requests_post uid msg_text) ;;
         print (Sent uid (fst res) (snd res))) ;;;
      send_loop rest msg_text
  end.

Definition send_message (msg_text : message) : M unit :=
  send_loop USER_IDS msg_text.

Definition analize_pressure_drop
    (current_jst_time : option datetime) (current_pressure : option float)
    (jst_time_30min_ago : option datetime) (pressure_30min_ago : option float)
  : M Decision :=
  match current_jst_time, current_pressure with
  | Some cur_time, Some cur_p =>
      match jst_time_30min_ago, pressure_30min_ago with
      | Some past_time, Some past_p =>
          let delta_pressure := (cur_p - past_p)%float in
          print (TimeSpan past_time cur_time) ;;;
          print (PressureSpan past_p cur_p) ;;;
          print (Delta delta_pressure) ;;;
          if is_night_hour cur_time then
            print NightSkip ;;; ret (Suppressed "night-hours")
          else if (delta_pressure <? -1.0)%float then
            ok <- should_notify cur_time 360 ;;
            if ok then
              let text := DropAlert cur_p in
              send_message text ;;; ret (Notify text)
            else
              print CooldownSkip ;;; ret (Suppressed "cooldown-active")
          else
            print NoBigChange ;;; ret NoChange
      | _, _ => print ErrPreviousNone ;;; ret (Suppressed "missing-data")
      end
  | _, _ => print ErrCurrentNone ;;; ret (Suppressed "missing-data")
  end.

Variable local_utcoffset : datetime -> timedelta.

Definition get_api_data (reply : option response)
  : option (datetime * option float) * list provider_event :=
  match reply with
  | None => (None, [HttpGet; ApiError RequestFailed])
  | Some res =>
      if negb (status_code res =? 200) then
        (None, [HttpGet; ApiStatus (status_code res);
                ApiError (BadStatus (status_code res))])
      else
        match json res with
        | None => (None, [HttpGet; ApiError BadBody])
        | Some data =>
            let current_pressure := pressure data in
            match timestamp data with
            | None => (None, [HttpGet; ApiError NoTimestamp])
            | Some current_time_utc_str =>
                match fromisoformat (replace_Z current_time_utc_str) with
                | None => (None, [HttpGet; ApiError BadTimestamp])
                | Some current_time_utc =>
                    match astimezone local_utcoffset JST current_time_utc with
                    | None => (None, [HttpGet; ApiError OutOfRange])
                    | Some current_time_jst =>
                        (Some (current_time_jst, current_pressure), [HttpGet])
                    end
                end
            end
        end
  end.

Definition main (reply : option response) (query : option (list flux_table))
    (f : fs) : list provider_event * main_outcome * world :=
  let idle := mkworld f [] in
  match get_api_data reply with
  | (None, log) => (log, UnpackError, idle)
  | (Some (current_jst_time, current_pressure), log) =>
      let log := log ++ [InfluxQuery] in
      match query with
      | None => (log, QueryError, idle)
      | Some result =>
          match get_bme680_data_from_influxdb local_utcoffset result with
          | NoSample => (log, UnpackError, idle)
          | ConversionOverflow => (log, OverflowError, idle)
          | Sample jst_time_30min_ago pressure_30min_ago =>
              let r := analize_pressure_drop
                         (Some current_jst_time) current_pressure
                         (Some jst_time_30min_ago) pressure_30min_ago idle in
              (log, Evaluated (fst r), snd r)
          end
      end
  end.

(** The outcome of [should_notify] on a record that was read and parsed. *)
Definition parsed_record (raw : str) : option datetime :=
  if is_empty (strip raw) then None else fromisoformat (strip raw).

(** How [send_message] ends and the events it leaves, as a function of the
    recipients. *)
Fixpoint send_run (uids : list str) (msg_text : message)
  : result unit * list event :=
  match uids with
  | [] => (Ret tt, [])
  | uid :: rest =>
      if is_empty (strip uid) then send_run rest msg_text
      else
        match requests_post (strip uid) msg_text with
        | Ret res =>
            (fst (send_run rest msg_text),
             Post (strip uid) msg_text
               :: Print (Sent (strip uid) (fst res) (snd res))
               :: snd (send_run rest msg_text))
        | Raise e => (Raise e, [Post (strip uid) msg_text])
        end
  end.

End Program.

End Generic.

(** The identifiers a message goes to: what is left of [USER_IDS] after
    stripping, without the blank entries. *)
Definition recipients (USER_IDS : list str) : list str :=
  filter (fun uid => negb (is_empty uid)) (map strip USER_IDS).

(** The request to [uid] is answered. *)
Definition answered (requests_post : endpoint) (text : message) (uid : str) : Prop :=
  exists res, requests_post uid text = Ret res.

(** An endpoint that cannot be reached, and a run that is throttled by the
    record of [sample_day]. *)
Definition sample_outage : endpoint := fun uid text => Raise OSError.

Definition sample_quiet_run : result Decision * world :=
  Generic.analize_pressure_drop fromisoformat sample_ids sample_outage
    (Some sample_soon) (Some 1008.0%float) (Some sample_past) (Some 1010.0%float)
    (mkworld (Present (isoformat sample_day)) []).

(** ** Properties *)

Ltac run_monad :=
  unfold bind, ret, raise, print, emit, try_except, lift,
    open_read, open_write in *; simpl in *.

(** *** Floating-point comparisons *)

Lemma compare_cont_Eq_antisym (p q : positive) :
  Pos.compare_cont Eq q p = CompOpp (Pos.compare_cont Eq p q).
Proof. exact (Pos.compare_antisym p q). Qed.

Lemma SFcompare_antisym (x y : spec_float) (c : comparison) :
  SFcompare x y = Some c -> SFcompare y x = Some (CompOpp c).
Proof.
  destruct x as [sx|sx| |sx mx ex], y as [sy|sy| |sy my ey]; simpl;
    try discriminate;
    try (destruct sx); try (destruct sy); simpl;
    intros H; inversion H; subst; clear H; try reflexivity;
    rewrite (Z.compare_antisym ex ey);
    destruct (ex ?= ey)%Z; simpl; try reflexivity;
    rewrite (compare_cont_Eq_antisym mx my); reflexivity.
Qed.

Lemma float_ge_not_lt (x y : float) :
  (y <=? x)%float = true -> (x <? y)%float = false.
Proof.
  rewrite leb_spec, ltb_spec. unfold SFleb, SFltb.
  destruct (SFcompare (Prim2SF y) (Prim2SF x)) as [c|] eqn:E.
  - apply SFcompare_antisym in E. rewrite E.
    destruct c; simpl; intros; try reflexivity; discriminate.
  - discriminate.
Qed.

(** *** The effects of the two helpers, in closed form *)

Lemma should_notify_unfold (cur : datetime) (thr : Z) (w : world) :
  should_notify cur thr w =
  match file w with
  | Missing =>
      (Ret true, mkworld (Present (isoformat cur))
                   (out w ++ [FileRead; FileWrite (isoformat cur)]))
  | Unreadable => (Raise OSError, mkworld Unreadable (out w ++ [FileRead]))
  | Present raw =>
      let tr := out w ++ [FileRead; Print (Echo (strip raw)); Print EchoType] in
      match parsed_record raw with
      | None =>
          (Ret true, mkworld (Present (isoformat cur))
                       (tr ++ [FileWrite (isoformat cur)]))
      | Some last =>
          match datetime_sub cur last with
          | None => (Raise TypeError, mkworld (Present raw) tr)
          | Some elapsed =>
              if elapsed <? timedelta_minutes thr
              then (Ret false, mkworld (Present raw) tr)
              else (Ret true, mkworld (Present (isoformat cur))
                                (tr ++ [FileWrite (isoformat cur)]))
          end
      end
  end.
Proof.
  destruct w as [f tr]. unfold should_notify, read_last_notify_time, parsed_record.
  destruct f as [|raw|]; run_monad; rewrite <- ?app_assoc; simpl; try reflexivity.
  destruct (is_empty (strip raw)); simpl.
  - rewrite <- app_assoc. reflexivity.
  - destruct (fromisoformat (strip raw)) as [last|]; simpl.
    + destruct (datetime_sub cur last) as [d|]; simpl; [|reflexivity].
      destruct (d <? timedelta_minutes thr); simpl; [reflexivity|].
      rewrite <- app_assoc. reflexivity.
    + rewrite <- app_assoc. reflexivity.
Qed.

Lemma send_loop_unfold rp (uids : list str) (msg : message) (w : world) :
  send_loop rp uids msg w
  = (Ret tt, mkworld (file w) (out w ++ send_events rp uids msg)).
Proof.
  revert w. induction uids as [|uid rest IH]; intros [f tr]; simpl.
  - unfold ret. simpl. rewrite app_nil_r. reflexivity.
  - destruct (is_empty (strip uid)); unfold bind, ret, print, emit; simpl;
      rewrite IH; simpl; rewrite <- ?app_assoc; reflexivity.
Qed.

Lemma fromisoformat_nil : fromisoformat [] = None.
Proof. reflexivity. Qed.

Lemma parsed_record_some (raw : str) (last : datetime) :
  fromisoformat (strip raw) = Some last -> parsed_record raw = Some last.
Proof.
  unfold parsed_record. destruct (strip raw) eqn:E; simpl; [|tauto].
  rewrite fromisoformat_nil. discriminate.
Qed.

(** *** [fromisoformat] inverts [isoformat] *)

Arguments int_ : simpl never.

Lemma digit_val_char (d : Z) :
  0 <= d <= 9 -> digit_val (digit_char d) = Some d.
Proof.
  intros H.
  assert (E : d = 0 \/ d = 1 \/ d = 2 \/ d = 3 \/ d = 4 \/ d = 5 \/ d = 6
              \/ d = 7 \/ d = 8 \/ d = 9) by lia.
  repeat (destruct E as [E|E]; [subst; reflexivity|]). subst; reflexivity.
Qed.

Lemma digit_char_is_digit (d : Z) : is_digit (digit_char d) = true.
Proof.
  destruct d as [|p|p]; [reflexivity| |reflexivity].
  do 4 (try destruct p as [p|p|]); reflexivity.
Qed.

Lemma is_digit_not_mark (x c : ascii) :
  is_digit x = true ->
  c = "-"%char \/ c = "+"%char \/ c = ":"%char \/ c = "."%char ->
  Ascii.eqb x c = false.
Proof.
  intros Hx Hc.
  destruct x as [[] [] [] [] [] [] [] []]; try discriminate Hx;
    destruct Hc as [->|[->|[->| ->]]]; reflexivity.
Qed.

Lemma is_digit_not_space (x : ascii) : is_digit x = true -> isspace x = false.
Proof.
  intros Hx.
  destruct x as [[] [] [] [] [] [] [] []]; try discriminate Hx; reflexivity.
Qed.

Lemma int_of_digits_snoc (s : str) (c : ascii) (acc : Z) :
  int_of_digits acc (s ++ [c])
  = v <-? int_of_digits acc s ;; d <-? digit_val c ;; Some (v * 10 + d).
Proof.
  revert acc. induction s as [|x s IH]; intros acc; simpl.
  - destruct (digit_val c); reflexivity.
  - destruct (digit_val x); [apply IH|reflexivity].
Qed.

Lemma int_of_digits_fmt_d (w : nat) :
  forall n acc, 0 <= n < 10 ^ Z.of_nat w ->
    int_of_digits acc (fmt_d w n) = Some (acc * 10 ^ Z.of_nat w + n).
Proof.
  induction w as [|w IH]; intros n acc H.
  - simpl in *. f_equal. lia.
  - rewrite Nat2Z.inj_succ, Z.pow_succ_r in * by lia.
    cbn [fmt_d]. rewrite int_of_digits_snoc.
    rewrite (IH (n / 10) acc) by (Z.div_mod_to_equations; lia).
    cbn [obind]. rewrite digit_val_char by (Z.div_mod_to_equations; lia).
    cbn [obind]. f_equal. Z.div_mod_to_equations. lia.
Qed.

Lemma fmt_d_length (w : nat) (n : Z) : List.length (fmt_d w n) = w.
Proof.
  revert n. induction w as [|w IH]; intros n; [reflexivity|].
  cbn [fmt_d]. rewrite length_app, IH. simpl. lia.
Qed.

Lemma fmt_d_digits (w : nat) (n : Z) : Forall (fun c => is_digit c = true) (fmt_d w n).
Proof.
  revert n. induction w as [|w IH]; intros n; [constructor|].
  cbn [fmt_d]. apply Forall_app. split; [apply IH|].
  constructor; [apply digit_char_is_digit|constructor].
Qed.

Lemma int_fmt_d (w : nat) (n : Z) :
  (0 < w)%nat -> 0 <= n < 10 ^ Z.of_nat w -> int_ (fmt_d w n) = Some n.
Proof.
  intros Hw H. unfold int_.
  destruct (fmt_d w n) eqn:E.
  - apply (f_equal (@List.length ascii)) in E. rewrite fmt_d_length in E.
    simpl in E. lia.
  - rewrite <- E. rewrite int_of_digits_fmt_d by exact H. f_equal.
Qed.

Lemma fmt_d_2 (n : Z) :
  fmt_d 2 n = [digit_char (n / 10 mod 10); digit_char (n mod 10)].
Proof. reflexivity. Qed.

Lemma fmt_d_4 (n : Z) :
  fmt_d 4 n = [digit_char (n / 10 / 10 / 10 mod 10);
               digit_char (n / 10 / 10 mod 10);
               digit_char (n / 10 mod 10); digit_char (n mod 10)].
Proof. reflexivity. Qed.

Lemma fmt_d_6 (n : Z) :
  fmt_d 6 n = [digit_char (n / 10 / 10 / 10 / 10 / 10 mod 10);
               digit_char (n / 10 / 10 / 10 / 10 mod 10);
               digit_char (n / 10 / 10 / 10 mod 10);
               digit_char (n / 10 / 10 mod 10);
               digit_char (n / 10 mod 10); digit_char (n mod 10)].
Proof. reflexivity. Qed.

(** [find] skips a prefix without the character. *)
Lemma find_app_absent (c : ascii) (s r : str) :
  Forall (fun x => Ascii.eqb x c = false) s ->
  find c (s ++ r) = option_map (Nat.add (List.length s)) (find c r).
Proof.
  induction 1 as [|x s Hx Hs IH]; simpl.
  - destruct (find c r); reflexivity.
  - rewrite Hx, IH. destruct (find c r); reflexivity.
Qed.

Lemma find_absent (c : ascii) (s : str) :
  Forall (fun x => Ascii.eqb x c = false) s -> find c s = None.
Proof.
  intros H. rewrite <- (app_nil_r s). rewrite find_app_absent by exact H.
  reflexivity.
Qed.

Lemma time_char_not_sign (c : ascii) :
  time_char c = true ->
  Ascii.eqb c "-" = false /\ Ascii.eqb c "+" = false.
Proof.
  unfold time_char. intros H.
  apply orb_true_iff in H. destruct H as [H|H].
  - apply orb_true_iff in H. destruct H as [H|H].
    + split; apply is_digit_not_mark; auto.
    + apply Ascii.eqb_eq in H. subst. split; reflexivity.
  - apply Ascii.eqb_eq in H. subst. split; reflexivity.
Qed.

Lemma time_chars_no_sign (s : str) :
  Forall (fun c => time_char c = true) s ->
  Forall (fun x => Ascii.eqb x "-" = false) s
  /\ Forall (fun x => Ascii.eqb x "+" = false) s.
Proof.
  induction 1 as [|c s Hc Hs [IH1 IH2]]; [split; constructor|].
  destruct (time_char_not_sign c Hc). split; constructor; assumption.
Qed.

Lemma digits_time_chars (s : str) :
  Forall (fun c => is_digit c = true) s -> Forall (fun c => time_char c = true) s.
Proof.
  apply Forall_impl. intros c H. unfold time_char. rewrite H. reflexivity.
Qed.

Lemma parse_hh_mm (a b c d : ascii) (x y : Z) :
  int_ [a; b] = Some x -> int_ [c; d] = Some y ->
  parse_hh_mm_ss_ff [a; b; ":"; c; d]%char = Some (x, y, 0, 0).
Proof.
  intros Hx Hy. unfold parse_hh_mm_ss_ff. simpl. rewrite Hx. simpl.
  rewrite Hy. reflexivity.
Qed.

Lemma parse_hh_mm_ss (a b c d e f : ascii) (x y z : Z) :
  int_ [a; b] = Some x -> int_ [c; d] = Some y -> int_ [e; f] = Some z ->
  parse_hh_mm_ss_ff [a; b; ":"; c; d; ":"; e; f]%char = Some (x, y, z, 0).
Proof.
  intros Hx Hy Hz. unfold parse_hh_mm_ss_ff. simpl. rewrite Hx. simpl.
  rewrite Hy. simpl. rewrite Hz. reflexivity.
Qed.

Lemma parse_hh_mm_ss_ffffff (a b c d e f : ascii) (frac : str) (x y z u : Z) :
  int_ [a; b] = Some x -> int_ [c; d] = Some y -> int_ [e; f] = Some z ->
  List.length frac = 6%nat -> int_ frac = Some u ->
  parse_hh_mm_ss_ff ([a; b; ":"; c; d; ":"; e; f; "."]%char ++ frac)
  = Some (x, y, z, u).
Proof.
  intros Hx Hy Hz Hl Hu. unfold parse_hh_mm_ss_ff. simpl. rewrite Hx. simpl.
  rewrite Hy. simpl. rewrite Hz. simpl. rewrite Hl, Hu. reflexivity.
Qed.

Lemma int_two_digits (n : Z) :
  0 <= n < 100 -> int_ [digit_char (n / 10 mod 10); digit_char (n mod 10)] = Some n.
Proof. intros H. rewrite <- fmt_d_2. apply int_fmt_d; simpl; lia. Qed.

Lemma parse_format_time (hh mm ss us : Z) :
  0 <= hh < 100 -> 0 <= mm < 100 -> 0 <= ss < 100 -> 0 <= us < 1000000 ->
  parse_hh_mm_ss_ff (format_time hh mm ss us) = Some (hh, mm, ss, us).
Proof.
  intros Hh Hm Hs Hu. unfold format_time. rewrite !fmt_d_2.
  destruct (us =? 0) eqn:E.
  - apply Z.eqb_eq in E. subst us.
    apply parse_hh_mm_ss; apply int_two_digits; assumption.
  - change (?a ++ lit ":" ++ ?b ++ lit ":" ++ ?c ++ lit "." ++ ?r)
      with (a ++ [":"%char] ++ b ++ [":"%char] ++ c ++ ["."%char] ++ r).
    cbn [app].
    apply (parse_hh_mm_ss_ffffff _ _ _ _ _ _ (fmt_d 6 us));
      try (apply int_two_digits; assumption).
    + apply fmt_d_length.
    + apply int_fmt_d; simpl; lia.
Qed.

Ltac time_chars :=
  repeat first
    [ apply Forall_nil
    | apply Forall_cons; [first [reflexivity
                                | unfold time_char; rewrite digit_char_is_digit; reflexivity]|]
    | apply Forall_app; split
    | apply digits_time_chars, fmt_d_digits ].

Lemma format_time_chars (hh mm ss us : Z) :
  Forall (fun c => time_char c = true) (format_time hh mm ss us).
Proof.
  unfold format_time. rewrite !fmt_d_2. destruct (us =? 0); unfold lit; simpl; time_chars.
Qed.

Lemma format_time_length (hh mm ss us : Z) :
  (2 <= List.length (format_time hh mm ss us))%nat.
Proof. unfold format_time. rewrite !fmt_d_2. simpl. lia. Qed.

Lemma format_offset_some (off : Z) :
  format_offset (Some off)
  = (if off <? 0 then "-"%char else "+"%char)
    :: offset_body (if off <? 0 then - off else off).
Proof. unfold format_offset, offset_body. destruct (off <? 0); reflexivity. Qed.

Lemma offset_body_chars (a : Z) :
  Forall (fun c => time_char c = true) (offset_body a).
Proof.
  unfold offset_body. cbv zeta. rewrite !fmt_d_2.
  destruct (_ =? 0); [unfold lit; simpl; time_chars|].
  destruct (_ =? 0); unfold lit; simpl; time_chars.
Qed.

Lemma parse_offset_body (a : Z) :
  0 <= a < DAY ->
  exists zh zm zs zus,
    parse_hh_mm_ss_ff (offset_body a) = Some (zh, zm, zs, zus)
    /\ (zh * 3600 + zm * 60 + zs) * 1000000 + zus = a
    /\ 0 <= zh /\ 0 <= zm /\ 0 <= zs /\ 0 <= zus
    /\ ((List.length (offset_body a) =? 5) || (List.length (offset_body a) =? 8)
        || (List.length (offset_body a) =? 15))%nat = true.
Proof.
  unfold DAY. intros Ha. unfold offset_body. cbv zeta.
  set (hh := a / 3600000000).
  set (mm := a mod 3600000000 / 60000000).
  set (ss := a mod 3600000000 mod 60000000).
  assert (Hhh : 0 <= hh < 100) by (subst hh; Z.div_mod_to_equations; lia).
  assert (Hmm : 0 <= mm < 100) by (subst mm; Z.div_mod_to_equations; lia).
  assert (Hss : 0 <= ss / 1000000 < 100) by (subst ss; Z.div_mod_to_equations; lia).
  assert (Hus : 0 <= ss mod 1000000 < 1000000) by (Z.div_mod_to_equations; lia).
  assert (Hsum : (hh * 3600 + mm * 60 + ss / 1000000) * 1000000 + ss mod 1000000 = a)
    by (subst hh mm ss; Z.div_mod_to_equations; lia).
  rewrite !fmt_d_2.
  destruct (ss =? 0) eqn:E1.
  - apply Z.eqb_eq in E1. exists hh, mm, 0, 0.
    split; [apply parse_hh_mm; apply int_two_digits; assumption|].
    rewrite E1 in Hsum. change (0 / 1000000) with 0 in Hsum.
    change (0 mod 1000000) with 0 in Hsum.
    repeat split; try lia.
  - destruct (ss mod 1000000 =? 0) eqn:E2.
    + apply Z.eqb_eq in E2. exists hh, mm, (ss / 1000000), 0.
      split; [apply parse_hh_mm_ss; apply int_two_digits; assumption|].
      repeat split; try lia.
    + exists hh, mm, (ss / 1000000), (ss mod 1000000).
      split.
      * change (?x ++ lit ":" ++ ?b ++ lit ":" ++ ?c ++ lit "." ++ ?r)
          with (x ++ [":"%char] ++ b ++ [":"%char] ++ c ++ ["."%char] ++ r).
        cbn [app].
        apply (parse_hh_mm_ss_ffffff _ _ _ _ _ _ (fmt_d 6 (ss mod 1000000)));
          try (apply int_two_digits; assumption).
        -- apply fmt_d_length.
        -- apply int_fmt_d; simpl; lia.
      * repeat split; try lia.
Qed.

Lemma firstn_length_app (s r : str) : firstn (List.length s) (s ++ r) = s.
Proof. induction s as [|x s IH]; simpl; [destruct r|rewrite IH]; reflexivity. Qed.

Lemma skipn_length_app (s r : str) (c : ascii) :
  skipn (S (List.length s)) (s ++ c :: r) = r.
Proof. induction s as [|x s IH]; simpl; [reflexivity|exact IH]. Qed.

Lemma nth_error_length_app (s r : str) (c : ascii) :
  nth_error (s ++ c :: r) (List.length s) = Some c.
Proof. induction s as [|x s IH]; simpl; [reflexivity|exact IH]. Qed.

Lemma parse_isoformat_time_naive (T : str) tc :
  Forall (fun c => time_char c = true) T ->
  (2 <= List.length T)%nat ->
  parse_hh_mm_ss_ff T = Some tc ->
  parse_isoformat_time T = Some (tc, None).
Proof.
  intros HT Hlen Hp. unfold parse_isoformat_time.
  replace (2 <=? List.length T)%nat with true
    by (symmetry; apply Nat.leb_le; exact Hlen).
  cbn [guard obind].
  destruct (time_chars_no_sign T HT) as [Hm Hp'].
  rewrite (find_absent _ _ Hm), (find_absent _ _ Hp'), Hp. reflexivity.
Qed.

Lemma parse_isoformat_time_aware (T B : str) (sign : ascii) tc zh zm zs zus :
  Forall (fun c => time_char c = true) T ->
  Forall (fun c => time_char c = true) B ->
  sign = "-"%char \/ sign = "+"%char ->
  parse_hh_mm_ss_ff T = Some tc ->
  parse_hh_mm_ss_ff B = Some (zh, zm, zs, zus) ->
  ((List.length B =? 5) || (List.length B =? 8) || (List.length B =? 15))%nat = true ->
  parse_isoformat_time (T ++ sign :: B)
  = if (zh =? 0) && (zm =? 0) && (zs =? 0) && (zus =? 0)
    then Some (tc, Some 0)
    else
      let off := (if Ascii.eqb sign "-" then -1 else 1)
                 * ((zh * 3600 + zm * 60 + zs) * 1000000 + zus) in
      if valid_offset off then Some (tc, Some off) else None.
Proof.
  intros HT HB Hsign HpT HpB Hlen. unfold parse_isoformat_time.
  assert (Hlen2 : (2 <=? List.length (T ++ sign :: B))%nat = true).
  { apply Nat.leb_le. rewrite length_app. simpl.
    destruct B as [|b1 B]; [discriminate Hlen|]. simpl. lia. }
  rewrite Hlen2. cbn [guard obind].
  destruct (time_chars_no_sign T HT) as [HTm HTp].
  destruct (time_chars_no_sign B HB) as [HBm HBp].
  assert (Hpos : match find "-" (T ++ sign :: B) with
                 | Some i => Some i
                 | None => find "+" (T ++ sign :: B)
                 end = Some (List.length T)).
  { destruct Hsign as [->| ->].
    - rewrite (find_app_absent _ _ _ HTm). simpl. f_equal. lia.
    - rewrite (find_absent "-" (T ++ "+"%char :: B)).
      + rewrite (find_app_absent _ _ _ HTp). simpl. f_equal. lia.
      + apply Forall_app. split; [exact HTm|]. constructor; [reflexivity|exact HBm]. }
  rewrite Hpos. unfold slice_from.
  rewrite firstn_length_app, skipn_length_app, nth_error_length_app.
  rewrite HpT, Hlen, HpB. cbn [guard obind char_is].
  destruct ((zh =? 0) && (zm =? 0) && (zs =? 0) && (zus =? 0)); [reflexivity|].
  cbv zeta. destruct (valid_offset _); reflexivity.
Qed.

Lemma parse_format_time_offset (hh mm ss us : Z) (tz : option timedelta) :
  0 <= hh < 100 -> 0 <= mm < 100 -> 0 <= ss < 100 -> 0 <= us < 1000000 ->
  match tz with
  | Some off => valid_offset off = true
  | None => True
  end ->
  parse_isoformat_time (format_time hh mm ss us ++ format_offset tz)
  = Some (hh, mm, ss, us, tz).
Proof.
  intros Hh Hm Hs Hu Htz.
  pose proof (parse_format_time hh mm ss us Hh Hm Hs Hu) as HpT.
  destruct tz as [off|].
  - rewrite format_offset_some.
    set (a := if off <? 0 then - off else off).
    assert (Ha : 0 <= a < DAY).
    { unfold valid_offset in Htz. apply andb_prop in Htz. destruct Htz as [H1 H2].
      apply Z.ltb_lt in H1, H2. subst a. destruct (Z.ltb_spec off 0); lia. }
    destruct (parse_offset_body a Ha)
      as [zh [zm [zs [zus [HpB [Hsum [Hzh [Hzm [Hzs [Hzus Hlen]]]]]]]]]].
    assert (Hsign : (if off <? 0 then "-"%char else "+"%char) = "-"%char
                    \/ (if off <? 0 then "-"%char else "+"%char) = "+"%char)
      by (destruct (off <? 0); auto).
    rewrite (parse_isoformat_time_aware _ _ _ _ zh zm zs zus
               (format_time_chars hh mm ss us) (offset_body_chars a)
               Hsign HpT HpB Hlen).
    destruct ((zh =? 0) && (zm =? 0) && (zs =? 0) && (zus =? 0)) eqn:Ez.
    + repeat (apply andb_prop in Ez; destruct Ez as [Ez ?]).
      repeat match goal with H : (_ =? 0) = true |- _ => apply Z.eqb_eq in H end.
      subst zh zm zs zus. simpl in Hsum. subst a.
      assert (off = 0) by (destruct (Z.ltb_spec off 0); lia).
      subst off. reflexivity.
    + cbv zeta.
      assert (Hoff : (if Ascii.eqb (if off <? 0 then "-"%char else "+"%char) "-"
                      then -1 else 1)
                     * ((zh * 3600 + zm * 60 + zs) * 1000000 + zus) = off).
      { rewrite Hsum. subst a. destruct (Z.ltb_spec off 0); simpl Ascii.eqb; cbv iota; lia. }
      rewrite Hoff, Htz. reflexivity.
  - simpl format_offset. rewrite app_nil_r.
    apply parse_isoformat_time_naive;
      [apply format_time_chars | apply format_time_length | exact HpT].
Qed.

Lemma days_in_month_le (y m : Z) : days_in_month y m <= 31.
Proof.
  unfold days_in_month. destruct ((m =? 2) && is_leap y); [lia|].
  destruct (Z.to_nat m) as [|[|[|[|[|[|[|[|[|[|[|[|[|[|n]]]]]]]]]]]]]];
    simpl; lia.
Qed.

Lemma valid_datetime_bounds (t : datetime) :
  valid_datetime t = true ->
  1 <= year t <= 9999 /\ 1 <= month t <= 12 /\ 1 <= day t <= 31
  /\ 0 <= hour t <= 23 /\ 0 <= minute t <= 59 /\ 0 <= second t <= 59
  /\ 0 <= microsecond t <= 999999
  /\ match tzinfo t with
     | Some off => valid_offset off = true
     | None => True
     end.
Proof.
  unfold valid_datetime. intros H.
  repeat (apply andb_prop in H; destruct H as [H ?]).
  repeat match goal with
         | H : (_ <=? _) = true |- _ => apply Z.leb_le in H
         end.
  pose proof (days_in_month_le (year t) (month t)).
  repeat split; try lia.
  destruct (tzinfo t); [assumption|exact I].
Qed.

Lemma parse_isoformat_date_fmt (y m d : Z) :
  0 <= y < 10000 -> 0 <= m < 100 -> 0 <= d < 100 ->
  parse_isoformat_date (fmt_d 4 y ++ lit "-" ++ fmt_d 2 m ++ lit "-" ++ fmt_d 2 d)
  = Some (y, m, d).
Proof.
  intros Hy Hm Hd.
  pose proof (int_fmt_d 4 y ltac:(lia) ltac:(simpl; lia)) as Ey.
  pose proof (int_fmt_d 2 m ltac:(lia) ltac:(simpl; lia)) as Em.
  pose proof (int_fmt_d 2 d ltac:(lia) ltac:(simpl; lia)) as Ed.
  rewrite fmt_d_4 in *. rewrite !fmt_d_2 in *.
  unfold parse_isoformat_date, slice, lit. simpl.
  rewrite Ey. simpl. rewrite Em. simpl. rewrite Ed. reflexivity.
Qed.

(** For every datetime the constructor accepts, parsing its ISO text
    gives the datetime back. *)
Lemma fromisoformat_isoformat (t : datetime) :
  valid_datetime t = true -> fromisoformat (isoformat t) = Some t.
Proof.
  intros Hv. pose proof (valid_datetime_bounds t Hv) as Hb.
  destruct Hb as [Hy [Hm [Hd [Hh [Hmi [Hs [Hu Htz]]]]]]].
  pose proof (parse_isoformat_date_fmt (year t) (month t) (day t)
                ltac:(lia) ltac:(lia) ltac:(lia)) as Hdate.
  pose proof (parse_format_time_offset (hour t) (minute t) (second t)
                (microsecond t) (tzinfo t)
                ltac:(lia) ltac:(lia) ltac:(lia) ltac:(lia) Htz) as Htime.
  pose proof (format_time_length (hour t) (minute t) (second t) (microsecond t))
    as Hlen.
  unfold isoformat, fromisoformat.
  set (T := format_time _ _ _ _ ++ format_offset _) in *.
  assert (HT : exists c T', T = c :: T').
  { subst T. destruct (format_time _ _ _ _) as [|c T']; [simpl in Hlen; lia|].
    eexists; eexists; reflexivity. }
  rewrite fmt_d_4 in *. rewrite !fmt_d_2 in *.
  unfold slice, slice_from, lit in *.
  cbn [app list_ascii_of_string firstn skipn Nat.sub] in *.
  rewrite Hdate. cbn [obind].
  destruct HT as [c [T' HT]]. rewrite HT in *. rewrite Htime. cbn [obind].
  destruct t; simpl in *. rewrite Hv. reflexivity.
Qed.

Lemma lstrip_digit_head (c : ascii) (s : str) :
  is_digit c = true -> lstrip (c :: s) = c :: s.
Proof. intros H. simpl. rewrite (is_digit_not_space c H). reflexivity. Qed.

(** [strip] leaves the ISO text alone: it starts and ends with a digit. *)

Lemma ends_with_digit_fmt_d (w : nat) (n : Z) : ends_with_digit (fmt_d (S w) n).
Proof.
  exists (fmt_d w (n / 10)), (digit_char (n mod 10)).
  split; [reflexivity|apply digit_char_is_digit].
Qed.

Lemma ends_with_digit_app (l r : str) : ends_with_digit r -> ends_with_digit (l ++ r).
Proof.
  intros [b [c [-> H]]]. exists (l ++ b), c. rewrite app_assoc. auto.
Qed.

Lemma format_time_ends_with_digit (hh mm ss us : Z) :
  ends_with_digit (format_time hh mm ss us).
Proof.
  unfold format_time. destruct (us =? 0).
  - rewrite app_nil_r. repeat first [apply ends_with_digit_fmt_d | apply ends_with_digit_app].
  - repeat first [apply ends_with_digit_fmt_d | apply ends_with_digit_app].
Qed.

Lemma offset_body_ends_with_digit (a : Z) : ends_with_digit (offset_body a).
Proof.
  unfold offset_body. cbv zeta. destruct (_ =? 0).
  - rewrite app_nil_r. repeat first [apply ends_with_digit_fmt_d | apply ends_with_digit_app].
  - destruct (_ =? 0).
    + rewrite app_nil_r. repeat first [apply ends_with_digit_fmt_d | apply ends_with_digit_app].
    + repeat first [apply ends_with_digit_fmt_d | apply ends_with_digit_app].
Qed.

Lemma isoformat_ends_with_digit (t : datetime) : ends_with_digit (isoformat t).
Proof.
  unfold isoformat. do 6 apply ends_with_digit_app.
  destruct (tzinfo t) as [off|].
  - rewrite format_offset_some.
    apply ends_with_digit_app.
    apply (ends_with_digit_app [_]). apply offset_body_ends_with_digit.
  - simpl format_offset. rewrite app_nil_r. apply format_time_ends_with_digit.
Qed.

Lemma strip_between_digits (c : ascii) (s : str) :
  is_digit c = true -> ends_with_digit (c :: s) -> strip (c :: s) = c :: s.
Proof.
  intros Hc [b [e [E He]]]. unfold strip.
  rewrite (lstrip_digit_head c s Hc). rewrite E, rev_app_distr. simpl rev at 2.
  cbn [app]. rewrite (lstrip_digit_head e _ He).
  change (e :: rev b) with ([e] ++ rev b).
  rewrite rev_app_distr, rev_involutive. reflexivity.
Qed.

Lemma strip_isoformat (t : datetime) : strip (isoformat t) = isoformat t.
Proof.
  pose proof (isoformat_ends_with_digit t) as H.
  unfold isoformat in *. rewrite fmt_d_4 in *. cbn [app] in *.
  apply strip_between_digits; [apply digit_char_is_digit|exact H].
Qed.

Lemma parsed_record_isoformat (t : datetime) :
  valid_datetime t = true -> parsed_record (isoformat t) = Some t.
Proof.
  intros Hv. apply parsed_record_some. rewrite strip_isoformat.
  apply fromisoformat_isoformat. exact Hv.
Qed.


(** *** Differences of datetimes *)

Lemma datetime_sub_diag (t : datetime) : datetime_sub t t = Some 0.
Proof.
  unfold datetime_sub. destruct (tzinfo t); f_equal; lia.
Qed.

Lemma datetime_sub_trans (a b c : datetime) (x y : timedelta) :
  datetime_sub a b = Some x -> datetime_sub b c = Some y ->
  datetime_sub a c = Some (x + y).
Proof.
  unfold datetime_sub.
  destruct (tzinfo a), (tzinfo b), (tzinfo c); intros H1 H2;
    inversion H1; inversion H2; subst; f_equal; lia.
Qed.

(** *** The decision procedure *)

Section Properties.

Variable USER_IDS : list str.
Variable requests_post : str -> message -> Z * str.

Local Abbreviation evaluate := (analize_pressure_drop USER_IDS requests_post).

Lemma evaluate_present cur cp past pp (w : world) :
  evaluate (Some cur) (Some cp) (Some past) (Some pp) w =
  let w0 := mkworld (file w) (out w ++ preamble cur cp past pp) in
  if is_night_hour cur then
    (Ret (Suppressed "night-hours"), mkworld (file w) (out w0 ++ [Print NightSkip]))
  else if (cp - pp <? -1.0)%float then
    match should_notify cur 360 w0 with
    | (Ret true, w1) =>
        (Ret (Notify (DropAlert cp)),
         mkworld (file w1)
           (out w1 ++ send_events requests_post USER_IDS (DropAlert cp)))
    | (Ret false, w1) =>
        (Ret (Suppressed "cooldown-active"),
         mkworld (file w1) (out w1 ++ [Print CooldownSkip]))
    | (Raise e, w1) => (Raise e, w1)
    end
  else (Ret NoChange, mkworld (file w) (out w0 ++ [Print NoBigChange])).
Proof.
  destruct w as [f tr].
  unfold analize_pressure_drop, preamble, bind, print, emit, ret. simpl.
  rewrite <- !app_assoc. simpl.
  destruct (is_night_hour cur);
    [simpl; rewrite <- ?app_assoc; reflexivity|].
  destruct (cp - pp <? -1.0)%float;
    [|simpl; rewrite <- ?app_assoc; reflexivity].
  destruct (should_notify cur 360 _) as [[[|]|e] w1]; try reflexivity.
  unfold send_message. rewrite send_loop_unfold. reflexivity.
Qed.

(** C2, as amended: outside the night hours, a delta of at least -1.0 hPa (the
    value -1.0 included) is decided [NoChange], whatever the record file
    is; the file is neither opened nor changed. *)
Theorem small_delta_no_change cur cp past pp (w : world) :
  is_night_hour cur = false ->
  (-1.0 <=? cp - pp)%float = true ->
  evaluate (Some cur) (Some cp) (Some past) (Some pp) w
  = (Ret NoChange,
     mkworld (file w)
       (out w ++ preamble cur cp past pp ++ [Print NoBigChange])).
Proof.
  intros Hday Hge. rewrite evaluate_present. simpl. rewrite Hday.
  rewrite (float_ge_not_lt _ _ Hge). rewrite <- app_assoc. reflexivity.
Qed.

(** C3: a current time given in JST whose hour lies in [0, 6) is decided
    [Suppressed "night-hours"], whatever the two pressures and the record
    file are; hour 6 is not night and hour 0 is. *)
Theorem night_hours_suppressed :
  (forall cur cp past pp (w : world),
      tzinfo cur = Some JST ->
      0 <= hour cur < 6 ->
      evaluate (Some cur) (Some cp) (Some past) (Some pp) w
      = (Ret (Suppressed "night-hours"),
         mkworld (file w)
           (out w ++ preamble cur cp past pp ++ [Print NightSkip])))
  /\ (forall t, hour t = 6 -> is_night_hour t = false)
  /\ (forall t, hour t = 0 -> is_night_hour t = true).
Proof.
  split; [|split].
  - intros cur cp past pp w _ Hh. rewrite evaluate_present. simpl.
    unfold is_night_hour.
    replace (0 <=? hour cur) with true by (symmetry; apply Z.leb_le; lia).
    replace (hour cur <? 6) with true by (symmetry; apply Z.ltb_lt; lia).
    simpl. rewrite <- app_assoc. reflexivity.
  - intros t H. unfold is_night_hour. rewrite H. reflexivity.
  - intros t H. unfold is_night_hour. rewrite H. reflexivity.
Qed.


(** C5: when the current or the past sample lacks its time or its
    pressure, the decision is [Suppressed "missing-data"]; the run prints
    the one error line and nothing else (no delta, no night rule), and the
    record file is neither opened nor changed, whatever it is. *)
Theorem missing_data_suppressed ct cp pt pp (w : world) :
  ct = None \/ cp = None \/ pt = None \/ pp = None ->
  exists l,
    (l = ErrCurrentNone \/ l = ErrPreviousNone)
    /\ evaluate ct cp pt pp w
       = (Ret (Suppressed "missing-data"),
          mkworld (file w) (out w ++ [Print l])).
Proof.
  intros H. destruct w as [f tr].
  destruct ct as [ct|], cp as [cp|];
    try (exists ErrCurrentNone; split; [now left | reflexivity]).
  destruct pt as [pt|], pp as [pp|];
    try (exists ErrPreviousNone; split; [now right | reflexivity]).
  destruct H as [H|[H|[H|H]]]; discriminate.
Qed.

(** C10: a record that holds an instant later than the current time gives a
    negative elapsed time, and a drop below -1.0 hPa outside the night
    hours is decided [Suppressed "cooldown-active"]; the record is kept. *)
Theorem future_record_suppresses cur cp past pp raw last elapsed tr :
  is_night_hour cur = false ->
  (cp - pp <? -1.0)%float = true ->
  fromisoformat (strip raw) = Some last ->
  datetime_sub cur last = Some elapsed ->
  elapsed < 0 ->
  exists tr',
    evaluate (Some cur) (Some cp) (Some past) (Some pp) (mkworld (Present raw) tr)
    = (Ret (Suppressed "cooldown-active"), mkworld (Present raw) tr').
Proof.
  intros Hday Hdrop Hparse Hsub Hneg.
  rewrite evaluate_present. simpl. rewrite Hday, Hdrop.
  rewrite should_notify_unfold. simpl.
  rewrite (parsed_record_some _ _ Hparse), Hsub.
  assert (Hlt : (elapsed <? 21600000000) = true) by (apply Z.ltb_lt; lia).
  rewrite Hlt.
  eexists. reflexivity.
Qed.

(** The events and the file after [should_notify]. *)
Lemma should_notify_effects cur thr (w : world) r w1 :
  should_notify cur thr w = (r, w1) ->
  exists ev,
    out w1 = out w ++ ev
    /\ sent ev = false
    /\ (r = Ret true ->
        file w1 = Present (isoformat cur) /\ In (FileWrite (isoformat cur)) ev)
    /\ (r <> Ret true ->
        file w1 = file w /\ forall s, ~ In (FileWrite s) ev).
Proof.
  rewrite should_notify_unfold. destruct w as [f tr]. simpl.
  destruct f as [|raw|]; simpl.
  - intros H; inversion H; subst; clear H. eexists; split; [reflexivity|].
    simpl. repeat split; auto; congruence.
  - destruct (parsed_record raw) as [last|].
    + destruct (datetime_sub cur last) as [d|].
      * destruct (d <? timedelta_minutes thr);
          intros H; inversion H; subst; clear H; simpl.
        -- eexists; split; [reflexivity|]. simpl.
           repeat split; try discriminate; auto.
           intros s [E|[E|[E|[]]]]; discriminate.
        -- rewrite <- app_assoc. eexists; split; [reflexivity|]. simpl.
           repeat split; auto; congruence.
      * intros H; inversion H; subst; clear H; simpl.
        eexists; split; [reflexivity|]. simpl.
        repeat split; try discriminate; auto.
        intros s [E|[E|[E|[]]]]; discriminate.
    + intros H; inversion H; subst; clear H; simpl.
      rewrite <- app_assoc. eexists; split; [reflexivity|]. simpl.
      repeat split; auto; congruence.
  - intros H; inversion H; subst; clear H; simpl.
    eexists; split; [reflexivity|]. simpl.
    repeat split; try discriminate; auto.
    intros s [E|[]]; discriminate.
Qed.

Lemma sent_app (l1 l2 : list event) : sent (l1 ++ l2) = sent l1 || sent l2.
Proof. apply existsb_app. Qed.

Lemma no_post_prefix (l1 l2 pre post : list event) uid text :
  sent l1 = false ->
  l1 ++ l2 = pre ++ Post uid text :: post ->
  exists pre', pre = l1 ++ pre'.
Proof.
  revert pre. induction l1 as [|a l1 IH]; intros pre Hs E.
  - exists pre. reflexivity.
  - simpl in Hs. apply orb_false_iff in Hs. destruct Hs as [Ha Hs].
    destruct pre as [|b pre]; simpl in E; inversion E; subst.
    + discriminate.
    + destruct (IH pre Hs H1) as [pre' ->]. exists pre'. reflexivity.
Qed.

Lemma no_post_no_split (l pre post : list event) uid text :
  sent l = false -> l <> pre ++ Post uid text :: post.
Proof.
  intros Hs E. rewrite E in Hs. rewrite sent_app in Hs. simpl in Hs.
  rewrite orb_true_r in Hs. discriminate.
Qed.

Lemma send_events_no_write rp uids msg s :
  ~ In (FileWrite s) (send_events rp uids msg).
Proof.
  induction uids as [|uid rest IH]; simpl; [tauto|].
  intros H. apply in_app_or in H. destruct H as [H|H]; [|tauto].
  destruct (is_empty (strip uid)); simpl in H; [tauto|].
  destruct H as [H|[H|[]]]; discriminate.
Qed.

(** C7: when the decision is [Notify], the record file holds the current
    time afterwards, and in every run each push request comes after the
    write of the current time to the record file, whatever the endpoint
    answers. *)
Theorem record_written_before_send ct cp pt pp (w : world) r w' :
  evaluate ct cp pt pp w = (r, w') ->
  exists new,
    out w' = out w ++ new
    /\ (forall text, r = Ret (Notify text) ->
        exists cur, ct = Some cur
                    /\ file w' = Present (isoformat cur)
                    /\ In (FileWrite (isoformat cur)) new)
    /\ (forall pre uid text post,
        new = pre ++ Post uid text :: post ->
        exists cur, ct = Some cur /\ In (FileWrite (isoformat cur)) pre).
Proof.
  intros Hrun.
  assert (Hmiss : forall l, (r, w') = (Ret (Suppressed "missing-data"),
                                  mkworld (file w) (out w ++ [Print l])) ->
          exists new, out w' = out w ++ new
            /\ (forall text, r = Ret (Notify text) ->
                exists cur, ct = Some cur
                            /\ file w' = Present (isoformat cur)
                            /\ In (FileWrite (isoformat cur)) new)
            /\ (forall pre uid text post,
                new = pre ++ Post uid text :: post ->
                exists cur, ct = Some cur /\ In (FileWrite (isoformat cur)) pre)).
  { intros l H. inversion H; subst; clear H. exists [Print l].
    split; [reflexivity|]. split; [discriminate|].
    intros pre uid text post E. exfalso.
    apply (no_post_no_split [Print l] pre post uid text); auto. }
  destruct ct as [cur|]; [|destruct w; apply (Hmiss ErrCurrentNone); rewrite <- Hrun; reflexivity].
  destruct cp as [cp|]; [|destruct w; apply (Hmiss ErrCurrentNone); rewrite <- Hrun; reflexivity].
  destruct pt as [past|]; [|destruct w; apply (Hmiss ErrPreviousNone); rewrite <- Hrun; reflexivity].
  destruct pp as [pp|]; [|destruct w; apply (Hmiss ErrPreviousNone); rewrite <- Hrun; reflexivity].
  clear Hmiss. rewrite evaluate_present in Hrun. simpl in Hrun.
  destruct (is_night_hour cur).
  { inversion Hrun; subst; clear Hrun. simpl. rewrite <- app_assoc.
    eexists; split; [reflexivity|]. split; [discriminate|].
    intros pre uid text post E. exfalso.
    eapply no_post_no_split; [|exact E]. reflexivity. }
  destruct (cp - pp <? -1.0)%float.
  2:{ inversion Hrun; subst; clear Hrun. simpl. rewrite <- app_assoc.
      eexists; split; [reflexivity|]. split; [discriminate|].
      intros pre uid text post E. exfalso.
      eapply no_post_no_split; [|exact E]. reflexivity. }
  destruct (should_notify cur 360 _) as [r1 w1] eqn:Hsn.
  apply should_notify_effects in Hsn. simpl in Hsn.
  destruct Hsn as [ev [Hout [Hns [Htrue Hfalse]]]].
  destruct r1 as [[|]|e]; inversion Hrun; subst; clear Hrun; simpl;
    rewrite Hout; rewrite <- !app_assoc.
  - destruct (Htrue eq_refl) as [Hfile Hin].
    eexists; split; [reflexivity|]. split.
    + intros text _. exists cur. repeat split; auto.
      apply in_or_app. right. apply in_or_app. left. exact Hin.
    + intros pre uid text post E. exists cur. split; [reflexivity|].
      rewrite app_assoc in E.
      apply no_post_prefix in E.
      * destruct E as [pre' ->]. apply in_or_app. left.
        apply in_or_app. right. exact Hin.
      * rewrite sent_app, Hns. reflexivity.
  - eexists; split; [reflexivity|]. split; [discriminate|].
    intros pre uid text post E. exfalso.
    eapply no_post_no_split; [|exact E].
    rewrite !sent_app, Hns. reflexivity.
  - eexists; split; [reflexivity|]. split; [discriminate|].
    intros pre uid text post E. exfalso.
    eapply no_post_no_split; [|exact E].
    rewrite !sent_app, Hns. reflexivity.
Qed.


(** *** Sequences of evaluation cycles *)

Lemma should_notify_true_advances cur (w : world) w1 :
  should_notify cur 360 w = (Ret true, w1) -> advances (file w) cur (file w1).
Proof.
  rewrite should_notify_unfold. destruct w as [f tr]. simpl.
  destruct f as [|raw|]; simpl.
  - intros H; inversion H; subst; clear H. split; [reflexivity|]. discriminate.
  - destruct (parsed_record raw) as [last|] eqn:Hp.
    + destruct (datetime_sub cur last) as [d|] eqn:Hs; [|discriminate].
      destruct (d <? 21600000000) eqn:Hge;
        intros H; inversion H; subst; clear H.
      apply Z.ltb_ge in Hge.
      split; [reflexivity|]. intros raw' last' E1 E2.
      inversion E1; subst. rewrite Hp in E2. inversion E2; subst.
      exists d. split; [assumption|]. unfold timedelta_minutes. lia.
    + intros H; inversion H; subst; clear H. split; [reflexivity|].
      intros raw' last' E1 E2. inversion E1; subst. congruence.
  - discriminate.
Qed.

Lemma run_cycle_cases (c : cycle) (f : fs) :
  (file (snd (run_cycle USER_IDS requests_post c f)) = f
   /\ ~ notifies (run_cycle USER_IDS requests_post c f))
  \/ (exists t, current_jst_time c = Some t
                /\ advances f t (file (snd (run_cycle USER_IDS requests_post c f)))).
Proof.
  assert (Hquiet : forall (d : Decision) tr,
             (forall text, d <> Notify text) -> sent tr = false ->
             ~ notifies (Ret d, mkworld f tr)).
  { intros d tr Hd Hs [H|[text H]]; simpl in H; [congruence|].
    inversion H. eapply Hd; eauto. }
  unfold run_cycle. destruct c as [ct cp pt pp]. simpl.
  destruct ct as [cur|];
    [|left; split; [reflexivity|apply Hquiet; [discriminate|reflexivity]]].
  destruct cp as [cp|];
    [|left; split; [reflexivity|apply Hquiet; [discriminate|reflexivity]]].
  destruct pt as [past|];
    [|left; split; [reflexivity|apply Hquiet; [discriminate|reflexivity]]].
  destruct pp as [pp|];
    [|left; split; [reflexivity|apply Hquiet; [discriminate|reflexivity]]].
  rewrite evaluate_present. simpl.
  destruct (is_night_hour cur);
    [left; split; [reflexivity|apply Hquiet; [discriminate|reflexivity]]|].
  destruct (cp - pp <? -1.0)%float;
    [|left; split; [reflexivity|apply Hquiet; [discriminate|reflexivity]]].
  destruct (should_notify cur 360 _) as [r1 w1] eqn:Hsn.
  destruct r1 as [[|]|e].
  - right. exists cur. split; [reflexivity|].
    apply should_notify_true_advances in Hsn. exact Hsn.
  - left. apply should_notify_effects in Hsn. simpl in Hsn.
    destruct Hsn as [ev [Hout [Hns [_ Hfalse]]]].
    destruct Hfalse as [Hf _]; [discriminate|]. simpl. split; [exact Hf|].
    rewrite Hf. apply Hquiet; [discriminate|].
    unfold sent in *. rewrite Hout. simpl. rewrite ?existsb_app, Hns. reflexivity.
  - left. apply should_notify_effects in Hsn. simpl in Hsn.
    destruct Hsn as [ev [Hout [Hns [_ Hfalse]]]].
    destruct Hfalse as [Hf _]; [discriminate|]. simpl. split; [exact Hf|].
    intros [H|[text H]]; simpl in H; [|discriminate].
    unfold sent in *. rewrite Hout in H. simpl in H. congruence.
Qed.

Lemma advances_holds_since (ti t : datetime) (f f' : fs) :
  valid_datetime t = true ->
  holds_since ti f -> advances f t f' ->
  exists d, datetime_sub t ti = Some d /\ timedelta_minutes 360 <= d
            /\ holds_since ti f'.
Proof.
  intros Hv [u [d [Hf [Hu [Hs Hd]]]]] [Hf' Hadv].
  destruct (Hadv _ u Hf (parsed_record_isoformat u Hu)) as [d' [Hs' Hd']].
  pose proof (datetime_sub_trans _ _ _ _ _ Hs' Hs) as Ht.
  exists (d' + d). split; [exact Ht|]. split; [lia|].
  exists t, (d' + d). unfold timedelta_minutes in Hd'. repeat split; auto. lia.
Qed.

Lemma later_cycles_respect_window (ti : datetime) (cs : list cycle) :
  forall (f : fs) (j : nat) cj rj,
    Forall (fun c => cycle_wf c = true) cs ->
    holds_since ti f ->
    nth_error cs j = Some cj ->
    nth_error (run_cycles USER_IDS requests_post cs f) j = Some rj ->
    notifies rj ->
    exists tj d, current_jst_time cj = Some tj
                 /\ datetime_sub tj ti = Some d /\ timedelta_minutes 360 <= d.
Proof.
  induction cs as [|c cs IH]; intros f j cj rj Hwf Hinv Hc Hr Hsent.
  - destruct j; discriminate.
  - inversion Hwf as [|? ? Hwc Hwcs]; subst.
    destruct (run_cycle_cases c f) as [[Hf Hns]|[t [Ht Hadv]]].
    + destruct j as [|j]; simpl in Hc, Hr.
      * inversion Hr; subst. contradiction.
      * rewrite Hf in Hr. eapply IH; eauto.
    + unfold cycle_wf in Hwc. rewrite Ht in Hwc.
      destruct (advances_holds_since ti t _ _ Hwc Hinv Hadv) as [d [Hs [Hd Hinv']]].
      destruct j as [|j]; simpl in Hc, Hr.
      * inversion Hc; subst. exists t, d. auto.
      * eapply IH; eauto.
Qed.

(** C1: in every sequence of evaluation cycles, two cycles that both
    notify (issue a push request, or end with the decision [Notify]) have
    current times at least 360 minutes apart: no second notification is
    sent within the cooldown window of an earlier one. *)
Theorem one_notification_per_window (cs : list cycle) (f : fs) (i j : nat)
    ci cj ri rj :
  Forall (fun c => cycle_wf c = true) cs ->
  (i < j)%nat ->
  nth_error cs i = Some ci ->
  nth_error cs j = Some cj ->
  nth_error (run_cycles USER_IDS requests_post cs f) i = Some ri ->
  nth_error (run_cycles USER_IDS requests_post cs f) j = Some rj ->
  notifies ri ->
  notifies rj ->
  exists ti tj elapsed,
    current_jst_time ci = Some ti
    /\ current_jst_time cj = Some tj
    /\ datetime_sub tj ti = Some elapsed
    /\ timedelta_minutes 360 <= elapsed.
Proof.
  revert f i j. induction cs as [|c cs IH];
    intros f i j Hwf Hij Hci Hcj Hri Hrj Hsi Hsj.
  - destruct i; discriminate.
  - inversion Hwf as [|? ? Hwc Hwcs]; subst.
    destruct j as [|j]; [lia|]. simpl in Hcj, Hrj.
    destruct i as [|i]; simpl in Hci, Hri.
    + inversion Hci; subst ci. inversion Hri; subst ri. clear Hci Hri.
      destruct (run_cycle_cases c f) as [[_ Hns]|[t [Ht [Hf' _]]]]; [contradiction|].
      unfold cycle_wf in Hwc. rewrite Ht in Hwc.
      assert (Hinv : holds_since t (file (snd (run_cycle USER_IDS requests_post c f)))).
      { exists t, 0. repeat split; auto; [apply datetime_sub_diag|lia]. }
      destruct (later_cycles_respect_window t cs _ j cj rj Hwcs Hinv Hcj Hrj Hsj)
        as [tj [d [Hj [Hs Hd]]]].
      exists t, tj, d. auto.
    + eapply (IH _ i j); eauto. lia.
Qed.

End Properties.

(** ** The properties on sample inputs *)

Lemma one_notification_per_window_witness :
  exists ti tj elapsed,
    current_jst_time (sample_cycle sample_day 1010.0 1012.0) = Some ti
    /\ current_jst_time (sample_cycle sample_later 1005.0 1008.0) = Some tj
    /\ datetime_sub tj ti = Some elapsed
    /\ timedelta_minutes 360 <= elapsed.
Proof.
  eapply (one_notification_per_window sample_ids sample_post sample_cycles
            Missing 0 2).
  - repeat constructor.
  - lia.
  - reflexivity.
  - reflexivity.
  - vm_compute. reflexivity.
  - vm_compute. reflexivity.
  - left. vm_compute. reflexivity.
  - left. vm_compute. reflexivity.
Defined.

Lemma small_delta_no_change_witness :
  (1012.0 - 1013.0)%float = (-1.0)%float
  /\ analize_pressure_drop sample_ids sample_post
       (Some sample_day) (Some 1012.0%float) (Some sample_past) (Some 1013.0%float)
       (mkworld Unreadable [])
     = (Ret NoChange,
        mkworld Unreadable
          ([] ++ preamble sample_day 1012.0 sample_past 1013.0 ++ [Print NoBigChange])).
Proof.
  split; [reflexivity|].
  apply (small_delta_no_change sample_ids sample_post sample_day 1012.0%float
           sample_past 1013.0%float (mkworld Unreadable []));
    reflexivity.
Defined.

(** C2, as stated, fails at night: a delta of -0.5 hPa at 03:00 JST is
    decided [Suppressed "night-hours"], not [NoChange]. *)
Lemma small_delta_at_night_counterexample :
  (-1.0 <=? 1012.5 - 1013.0)%float = true
  /\ fst (analize_pressure_drop sample_ids sample_post
            (Some sample_night) (Some 1012.5%float)
            (Some sample_past) (Some 1013.0%float) (mkworld Missing []))
     = Ret (Suppressed "night-hours")
  /\ Ret (Suppressed "night-hours") <> Ret NoChange.
Proof.
  split; [reflexivity|]. split; [reflexivity|]. discriminate.
Qed.

Lemma night_hours_suppressed_witness :
  analize_pressure_drop sample_ids sample_post
    (Some sample_night) (Some 1000.0%float) (Some sample_past) (Some 1013.0%float)
    (mkworld Missing [])
  = (Ret (Suppressed "night-hours"),
     mkworld Missing
       ([] ++ preamble sample_night 1000.0 sample_past 1013.0 ++ [Print NightSkip])).
Proof.
  apply (proj1 (night_hours_suppressed sample_ids sample_post)
           sample_night 1000.0%float sample_past 1013.0%float (mkworld Missing [])).
  - reflexivity.
  - simpl. lia.
Defined.


Lemma missing_data_suppressed_witness :
  exists l,
    (l = ErrCurrentNone \/ l = ErrPreviousNone)
    /\ analize_pressure_drop sample_ids sample_post
         (Some sample_night) (Some 1000.0%float) None (Some 1013.0%float)
         (mkworld Unreadable [])
       = (Ret (Suppressed "missing-data"), mkworld Unreadable ([] ++ [Print l])).
Proof.
  apply (missing_data_suppressed sample_ids sample_post
           (Some sample_night) (Some 1000.0%float) None (Some 1013.0%float)
           (mkworld Unreadable [])).
  right. right. left. reflexivity.
Defined.


Lemma record_written_before_send_witness :
  exists new,
    out (snd sample_notify_run) = [] ++ new
    /\ (forall text, fst sample_notify_run = Ret (Notify text) ->
        exists cur, Some sample_day = Some cur
                    /\ file (snd sample_notify_run) = Present (isoformat cur)
                    /\ In (FileWrite (isoformat cur)) new)
    /\ (forall pre uid text post,
        new = pre ++ Post uid text :: post ->
        exists cur, Some sample_day = Some cur /\ In (FileWrite (isoformat cur)) pre).
Proof.
  apply (record_written_before_send sample_ids sample_post
           (Some sample_day) (Some 1010.0%float) (Some sample_past) (Some 1012.0%float)
           (mkworld Missing []) (fst sample_notify_run) (snd sample_notify_run)).
  reflexivity.
Defined.


Lemma future_record_suppresses_witness :
  exists tr',
    analize_pressure_drop sample_ids sample_post
      (Some sample_day) (Some 1010.0%float) (Some sample_past) (Some 1012.0%float)
      (mkworld (Present (lit "2024-03-05T15:07:09+09:00")) [])
    = (Ret (Suppressed "cooldown-active"),
       mkworld (Present (lit "2024-03-05T15:07:09+09:00")) tr').
Proof.
  apply (future_record_suppresses sample_ids sample_post sample_day 1010.0%float
           sample_past 1012.0%float (lit "2024-03-05T15:07:09+09:00")
           (mkdatetime 2024 3 5 15 7 9 0 (Some JST)) (-3600000000) []);
    try reflexivity.
Defined.

(** ** Properties of the providers and the entry point *)

(** *** Ordinals and dates *)

Lemma is_leap_true (y : Z) :
  y mod 4 = 0 -> (y mod 100 <> 0 \/ y mod 400 = 0) -> is_leap y = true.
Proof.
  intros H4 H. unfold is_leap.
  apply Z.eqb_eq in H4. rewrite H4. simpl.
  destruct H as [H|H].
  - apply Z.eqb_neq in H. rewrite H. reflexivity.
  - apply Z.eqb_eq in H. rewrite H. apply orb_true_r.
Qed.

Lemma is_leap_false (y : Z) :
  y mod 4 <> 0 \/ (y mod 100 = 0 /\ y mod 400 <> 0) -> is_leap y = false.
Proof.
  intros H. unfold is_leap. destruct H as [H|[H1 H2]].
  - apply Z.eqb_neq in H. rewrite H. reflexivity.
  - apply Z.eqb_eq in H1. apply Z.eqb_neq in H2. rewrite H1, H2.
    apply andb_false_r.
Qed.

Ltac euclid x d q r :=
  let Hq := fresh "Hdiv" in
  let Hr := fresh "Hmod" in
  pose proof (Z.div_mod x d ltac:(lia)) as Hq;
  pose proof (Z.mod_pos_bound x d ltac:(lia)) as Hr;
  set (q := x / d) in *; set (r := x mod d) in *; clearbody q r.

Ltac ground_step :=
  match goal with
  | |- context [Z.to_nat (Z.pos ?p)] =>
      let v := eval vm_compute in (Z.to_nat (Z.pos p)) in
      change (Z.to_nat (Z.pos p)) with v
  | |- context [Z.to_nat 0] => change (Z.to_nat 0) with 0%nat
  | |- context [Z.pos ?p - 1] =>
      let v := eval vm_compute in (Z.pos p - 1) in
      change (Z.pos p - 1) with v
  | |- context [2 <? Z.pos ?p] =>
      let v := eval vm_compute in (2 <? Z.pos p) in
      change (2 <? Z.pos p) with v
  | |- context [Z.pos ?p =? 2] =>
      let v := eval vm_compute in (Z.pos p =? 2) in
      change (Z.pos p =? 2) with v
  | |- context [0 =? 2] => change (0 =? 2) with false
  | |- context [2 <? 0] => change (2 <? 0) with false
  | _ => progress cbn [nth DAYS_BEFORE_MONTH DAYS_IN_MONTH andb fst snd]
  end.

Ltac ground_eval := repeat ground_step.

Lemma month_day_spec (leap : bool) (r : Z) :
  0 <= r < 365 ->
  1 <= fst (month_day leap r) <= 12
  /\ 1 <= snd (month_day leap r)
          <= (if (fst (month_day leap r) =? 2) && leap then 29
              else nth (Z.to_nat (fst (month_day leap r))) DAYS_IN_MONTH 0)
  /\ nth (Z.to_nat (fst (month_day leap r))) DAYS_BEFORE_MONTH 0
     + (if (2 <? fst (month_day leap r)) && leap then 1 else 0)
     + snd (month_day leap r) = r + 1.
Proof.
  intros Hr. unfold month_day. rewrite Z.shiftr_div_pow2 by lia.
  change (2 ^ 5) with 32.
  euclid (r + 50) 32 m0 rr.
  assert (Hm : m0 = 1 \/ m0 = 2 \/ m0 = 3 \/ m0 = 4 \/ m0 = 5 \/ m0 = 6 \/ m0 = 7
               \/ m0 = 8 \/ m0 = 9 \/ m0 = 10 \/ m0 = 11 \/ m0 = 12) by lia.
  repeat match type of Hm with _ \/ _ => destruct Hm as [Hm|Hm] end;
    subst m0; destruct leap; ground_eval;
    match goal with |- context [?a <? ?b] => destruct (Z.ltb_spec a b) end;
    ground_eval; lia.
Qed.

Lemma days_before_year_cycles (a b c e : Z) :
  0 <= a -> 0 <= b <= 3 -> 0 <= c <= 24 -> 0 <= e <= 3 ->
  days_before_year (a * 400 + 1 + b * 100 + c * 4 + e)
  = 146097 * a + 36524 * b + 1461 * c + 365 * e.
Proof.
  intros Ha Hb Hc He. unfold days_before_year. cbv zeta.
  replace (a * 400 + 1 + b * 100 + c * 4 + e - 1)
    with (400 * a + 100 * b + 4 * c + e) by lia.
  Z.div_mod_to_equations. lia.
Qed.

Lemma is_leap_cycles (a b c e : Z) :
  0 <= a -> 0 <= b <= 3 -> 0 <= c <= 24 -> 0 <= e <= 3 ->
  is_leap (a * 400 + 1 + b * 100 + c * 4 + e)
  = (e =? 3) && (negb (c =? 24) || (b =? 3)).
Proof.
  intros Ha Hb Hc He.
  destruct (Z.eqb_spec e 3) as [He3|He3]; cbn [andb].
  - destruct (Z.eqb_spec c 24) as [Hc24|Hc24]; cbn [negb orb].
    + destruct (Z.eqb_spec b 3) as [Hb3|Hb3].
      * apply is_leap_true; [|right]; Z.div_mod_to_equations; lia.
      * apply is_leap_false. right. split; Z.div_mod_to_equations; lia.
    + apply is_leap_true; [|left]; Z.div_mod_to_equations; lia.
  - apply is_leap_false. left. Z.div_mod_to_equations. lia.
Qed.

(** [_ord2ymd] gives a date of the calendar, and [_ymd2ord] takes it back
    to the ordinal. *)
Lemma ord2ymd_spec (n : Z) :
  1 <= n <= MAXORDINAL ->
  exists y m d,
    ord2ymd n = (y, m, d)
    /\ 1 <= y <= 9999 /\ 1 <= m <= 12 /\ 1 <= d <= days_in_month y m
    /\ ymd2ord y m d = n.
Proof.
  unfold MAXORDINAL. intros Hn.
  unfold ord2ymd, DI400Y, DI100Y, DI4Y. cbv zeta.
  euclid (n - 1) 146097 a r1.
  euclid r1 36524 b r2.
  euclid r2 1461 c r3.
  euclid r3 365 e r4.
  destruct (Z.eqb_spec b 4) as [Hb4|Hb4].
  { rewrite orb_true_r.
    exists (a * 400 + 1 + b * 100 + c * 4 + e - 1), 12, 31.
    split; [reflexivity|].
    assert (Hy : a * 400 + 1 + b * 100 + c * 4 + e - 1 = a * 400 + 1 + 3 * 100 + 24 * 4 + 3)
      by lia.
    rewrite Hy. unfold days_in_month, ymd2ord, days_before_month.
    rewrite days_before_year_cycles by lia.
    rewrite is_leap_cycles by lia. ground_eval.
    change ((3 =? 3) && (negb (24 =? 24) || (3 =? 3))) with true.
    change (2 <? 12) with true. change (12 =? 2) with false.
    ground_eval. repeat split; lia. }
  destruct (Z.eqb_spec e 4) as [He4|He4]; cbn [orb].
  { exists (a * 400 + 1 + b * 100 + c * 4 + e - 1), 12, 31.
    split; [reflexivity|].
    assert (Hy : a * 400 + 1 + b * 100 + c * 4 + e - 1
                 = a * 400 + 1 + b * 100 + c * 4 + 3) by lia.
    rewrite Hy. unfold days_in_month, ymd2ord, days_before_month.
    rewrite days_before_year_cycles by lia.
    rewrite is_leap_cycles by lia.
    assert (Hc23 : (c =? 24) = false) by (apply Z.eqb_neq; lia).
    rewrite Hc23. ground_eval.
    change ((3 =? 3) && (negb false || (b =? 3))) with true.
    change (2 <? 12) with true. change (12 =? 2) with false.
    ground_eval. repeat split; lia. }
  set (leap := (e =? 3) && (negb (c =? 24) || (b =? 3))).
  pose proof (month_day_spec leap r4 ltac:(lia)) as [Hm [Hd Hsum]].
  exists (a * 400 + 1 + b * 100 + c * 4 + e),
    (fst (month_day leap r4)), (snd (month_day leap r4)).
  split.
  { unfold month_day. cbv zeta.
    match goal with |- context [?x <? ?y] => destruct (x <? y) end; reflexivity. }
  unfold days_in_month, ymd2ord, days_before_month.
  rewrite days_before_year_cycles by lia.
  rewrite is_leap_cycles by lia. fold leap.
  repeat split; try lia.
Qed.

(** *** Adding a [timedelta] and changing the zone *)

Lemma valid_datetime_intro (t : datetime) :
  1 <= year t <= 9999 -> 1 <= month t <= 12 ->
  1 <= day t <= days_in_month (year t) (month t) ->
  0 <= hour t <= 23 -> 0 <= minute t <= 59 -> 0 <= second t <= 59 ->
  0 <= microsecond t <= 999999 ->
  match tzinfo t with
  | Some off => valid_offset off = true
  | None => True
  end ->
  valid_datetime t = true.
Proof.
  intros Hy Hm Hd Hh Hmi Hs Hu Htz. unfold valid_datetime.
  repeat (apply andb_true_intro; split);
    try (apply Z.leb_le; lia).
  destruct (tzinfo t); [exact Htz|reflexivity].
Qed.

Lemma datetime_add_spec (t : datetime) (delta : timedelta) (t' : datetime) :
  datetime_add t delta = Some t' ->
  wall_microseconds t' = wall_microseconds t + delta
  /\ tzinfo t' = tzinfo t
  /\ hour t' = (wall_microseconds t + delta) mod DAY / 1000000 / 3600
  /\ (1 <= year t' <= 9999 /\ 1 <= month t' <= 12
      /\ 1 <= day t' <= days_in_month (year t') (month t')
      /\ 0 <= hour t' <= 23 /\ 0 <= minute t' <= 59 /\ 0 <= second t' <= 59
      /\ 0 <= microsecond t' <= 999999).
Proof.
  unfold datetime_add. cbv zeta.
  set (total := wall_microseconds t + delta).
  destruct ((0 <? total / DAY) && (total / DAY <=? MAXORDINAL)) eqn:Hrange;
    [|discriminate].
  apply andb_prop in Hrange. destruct Hrange as [H1 H2].
  apply Z.ltb_lt in H1. apply Z.leb_le in H2.
  destruct (ord2ymd_spec (total / DAY) ltac:(lia))
    as [y [m [d [Hymd [Hy [Hm [Hd Hord]]]]]]].
  rewrite Hymd. intros H. inversion H; subst t'; clear H.
  unfold wall_microseconds at 1, toordinal. cbn [year month day hour minute
    second microsecond tzinfo].
  rewrite Hord. unfold DAY in *.
  split; [Z.div_mod_to_equations; lia|].
  split; [reflexivity|]. split; [reflexivity|].
  repeat split; try lia; Z.div_mod_to_equations; lia.
Qed.

Lemma wall_microseconds_replace_tzinfo (t : datetime) (tz : option timedelta) :
  wall_microseconds (replace_tzinfo t tz) = wall_microseconds t.
Proof. reflexivity. Qed.

Section Conversion.

Variable local_utcoffset : datetime -> timedelta.

Lemma astimezone_spec (tz : timedelta) (t t' : datetime) :
  astimezone local_utcoffset tz t = Some t' ->
  tzinfo t' = Some tz
  /\ wall_microseconds t' = wall_microseconds t - own_offset local_utcoffset t + tz
  /\ hour t' = (wall_microseconds t - own_offset local_utcoffset t + tz) mod DAY / 1000000 / 3600
  /\ (valid_offset tz = true -> valid_datetime t' = true).
Proof.
  unfold astimezone. fold (own_offset local_utcoffset t).
  destruct (datetime_add t (- own_offset local_utcoffset t)) as [utc|] eqn:Hutc;
    cbn [obind]; [|discriminate].
  intros Hadd.
  apply datetime_add_spec in Hutc. destruct Hutc as [Hw [_ _]].
  apply datetime_add_spec in Hadd.
  destruct Hadd as [Hw' [Htz [Hh Hb]]].
  rewrite wall_microseconds_replace_tzinfo in Hw', Hh.
  rewrite Hw in Hw', Hh. cbn [replace_tzinfo tzinfo] in Htz.
  split; [exact Htz|]. split; [lia|].
  split; [rewrite Hh; f_equal; f_equal; f_equal; lia|].
  intros Hv. destruct Hb as [? [? [? [? [? [? ?]]]]]].
  apply valid_datetime_intro; auto. rewrite Htz. exact Hv.
Qed.

End Conversion.

Lemma datetime_add_some (t : datetime) (delta : timedelta) :
  0 < (wall_microseconds t + delta) / DAY <= MAXORDINAL ->
  exists t', datetime_add t delta = Some t'.
Proof.
  intros [H1 H2]. unfold datetime_add. cbv zeta.
  apply Z.ltb_lt in H1. apply Z.leb_le in H2. rewrite H1, H2. cbn [andb].
  destruct (ord2ymd _) as [[y m] d]. eexists. reflexivity.
Qed.

Lemma days_before_month_bounds (y m : Z) :
  1 <= m <= 12 -> 0 <= days_before_month y m <= 335.
Proof.
  intros Hm. unfold days_before_month.
  assert (E : m = 1 \/ m = 2 \/ m = 3 \/ m = 4 \/ m = 5 \/ m = 6 \/ m = 7
              \/ m = 8 \/ m = 9 \/ m = 10 \/ m = 11 \/ m = 12) by lia.
  repeat match type of E with _ \/ _ => destruct E as [E|E] end;
    subst m; destruct (is_leap y); ground_eval;
    repeat match goal with
           | |- context [2 <? ?k] =>
               let v := eval vm_compute in (2 <? k) in change (2 <? k) with v
           end;
    ground_eval; lia.
Qed.

Lemma wall_microseconds_bounds (t : datetime) :
  valid_datetime t = true ->
  2 <= year t <= 9998 ->
  366 * DAY <= wall_microseconds t < 3651795 * DAY.
Proof.
  intros Hv Hy.
  destruct (valid_datetime_bounds t Hv) as [_ [Hm [Hd [Hh [Hmi [Hs [Hu _]]]]]]].
  pose proof (days_before_month_bounds (year t) (month t) Hm) as Hdbm.
  unfold wall_microseconds, toordinal, ymd2ord, DAY.
  assert (Hdby : 365 <= days_before_year (year t) <= 3651428).
  { unfold days_before_year. cbv zeta. Z.div_mod_to_equations. lia. }
  lia.
Qed.

Section ConversionTheorems.

Variable local_utcoffset : datetime -> timedelta.

Lemma astimezone_aware (tz off : timedelta) (t t' : datetime) :
  tzinfo t = Some off ->
  valid_offset tz = true ->
  astimezone local_utcoffset tz t = Some t' ->
  tzinfo t' = Some tz
  /\ datetime_sub t' t = Some 0
  /\ valid_datetime t' = true.
Proof.
  intros Hoff Hvtz Hconv.
  destruct (astimezone_spec local_utcoffset tz t t' Hconv) as [Htz [Hw [_ Hv]]].
  unfold own_offset in Hw. rewrite Hoff in Hw.
  split; [exact Htz|]. split; [|exact (Hv Hvtz)].
  unfold datetime_sub. rewrite Htz, Hoff. f_equal. lia.
Qed.

Lemma astimezone_defined (tz off : timedelta) (t : datetime) :
  valid_datetime t = true ->
  tzinfo t = Some off ->
  valid_offset tz = true ->
  2 <= year t <= 9998 ->
  exists t', astimezone local_utcoffset tz t = Some t'.
Proof.
  intros Hv Hoff Hvtz Hy.
  pose proof (wall_microseconds_bounds t Hv Hy) as Hw.
  assert (Hvoff : valid_offset off = true).
  { destruct (valid_datetime_bounds t Hv) as [_ [_ [_ [_ [_ [_ [_ H]]]]]]].
    rewrite Hoff in H. exact H. }
  unfold valid_offset in Hvtz, Hvoff.
  apply andb_prop in Hvtz. destruct Hvtz as [Hz1 Hz2].
  apply andb_prop in Hvoff. destruct Hvoff as [Ho1 Ho2].
  apply Z.ltb_lt in Hz1, Hz2, Ho1, Ho2.
  unfold astimezone. rewrite Hoff.
  destruct (datetime_add_some t (- off)) as [utc Hutc].
  { unfold MAXORDINAL, DAY in *. Z.div_mod_to_equations. lia. }
  rewrite Hutc. cbn [obind].
  apply datetime_add_spec in Hutc. destruct Hutc as [Hwu _].
  apply datetime_add_some. rewrite wall_microseconds_replace_tzinfo, Hwu.
  unfold MAXORDINAL, DAY in *. Z.div_mod_to_equations. lia.
Qed.

(** X1: converting an aware datetime of the years 2 to 9998 to another
    zone returns a datetime (no overflow) that carries the new offset,
    denotes the same instant (it differs from the original by a zero
    [timedelta]) and is again a datetime the constructor accepts. *)
Theorem astimezone_same_instant (tz off : timedelta) (t : datetime) :
  valid_datetime t = true ->
  tzinfo t = Some off ->
  valid_offset tz = true ->
  2 <= year t <= 9998 ->
  exists t',
    astimezone local_utcoffset tz t = Some t'
    /\ tzinfo t' = Some tz
    /\ datetime_sub t' t = Some 0
    /\ valid_datetime t' = true.
Proof.
  intros Hv Hoff Hvtz Hy.
  destruct (astimezone_defined tz off t Hv Hoff Hvtz Hy) as [t' Hconv].
  exists t'. split; [exact Hconv|].
  exact (astimezone_aware tz off t t' Hoff Hvtz Hconv).
Qed.

Lemma jst_hour_of_utc (t t' : datetime) :
  valid_datetime t = true ->
  tzinfo t = Some 0 ->
  astimezone local_utcoffset JST t = Some t' ->
  hour t' = (hour t + 9) mod 24.
Proof.
  intros Hv Hutc Hconv.
  destruct (astimezone_spec local_utcoffset JST t t' Hconv) as [_ [_ [Hh _]]].
  destruct (valid_datetime_bounds t Hv) as [_ [_ [_ [Hhr [Hmi [Hs [Hu _]]]]]]].
  unfold own_offset in Hh. rewrite Hutc in Hh.
  rewrite Hh. unfold wall_microseconds, JST, DAY.
  generalize (toordinal t). intros o.
  Z.div_mod_to_equations. lia.
Qed.

(** X2: for a datetime given in UTC, the hour after the conversion to JST
    is the UTC hour plus nine, modulo 24; so [is_night_hour] holds of the
    converted time exactly when the UTC hour lies in [15, 21). *)
Theorem night_window_in_utc (t t' : datetime) :
  valid_datetime t = true ->
  tzinfo t = Some 0 ->
  astimezone local_utcoffset JST t = Some t' ->
  hour t' = (hour t + 9) mod 24
  /\ is_night_hour t' = (15 <=? hour t) && (hour t <? 21).
Proof.
  intros Hv Hutc Hconv.
  pose proof (jst_hour_of_utc t t' Hv Hutc Hconv) as Hhour.
  destruct (valid_datetime_bounds t Hv) as [_ [_ [_ [Hhr _]]]].
  split; [exact Hhour|].
  unfold is_night_hour. rewrite Hhour.
  destruct (Z.leb_spec 15 (hour t)); destruct (Z.ltb_spec (hour t) 21);
    cbn [andb];
    [ apply andb_true_intro; split; [apply Z.leb_le|apply Z.ltb_lt]
    | apply andb_false_intro2; apply Z.ltb_ge
    | apply andb_false_intro2; apply Z.ltb_ge
    | apply andb_false_intro2; apply Z.ltb_ge ];
    Z.div_mod_to_equations; lia.
Qed.

End ConversionTheorems.

(** *** [get_api_data] *)

Lemma replace_Z_app (s r : str) : replace_Z (s ++ r) = replace_Z s ++ replace_Z r.
Proof.
  induction s as [|c s IH]; [reflexivity|]. simpl.
  destruct (Ascii.eqb c "Z"); rewrite IH; reflexivity.
Qed.

Lemma replace_Z_absent (s : str) :
  Forall (fun c => Ascii.eqb c "Z" = false) s -> replace_Z s = s.
Proof.
  induction 1 as [|c s Hc Hs IH]; [reflexivity|].
  simpl. rewrite Hc, IH. reflexivity.
Qed.

Lemma time_char_not_Z (c : ascii) : time_char c = true -> Ascii.eqb c "Z" = false.
Proof.
  unfold time_char, is_digit.
  destruct c as [[] [] [] [] [] [] [] []]; try discriminate; reflexivity.
Qed.

Lemma isoformat_naive_no_Z (t : datetime) :
  Forall (fun c => Ascii.eqb c "Z" = false) (isoformat (replace_tzinfo t None)).
Proof.
  unfold isoformat. cbn [replace_tzinfo year month day hour minute second
    microsecond tzinfo format_offset].
  rewrite app_nil_r.
  assert (Hd : forall w n, Forall (fun c => Ascii.eqb c "Z" = false) (fmt_d w n)).
  { intros w n. eapply Forall_impl; [|apply (digits_time_chars _ (fmt_d_digits w n))].
    intros c. apply time_char_not_Z. }
  assert (Ht : forall hh mm ss us,
             Forall (fun c => Ascii.eqb c "Z" = false) (format_time hh mm ss us)).
  { intros. eapply Forall_impl; [|apply format_time_chars].
    intros c. apply time_char_not_Z. }
  repeat first [ apply Hd | apply Ht | apply Forall_app; split
               | apply Forall_cons; [reflexivity|] | apply Forall_nil ].
Qed.

Lemma isoformat_utc (t : datetime) :
  tzinfo t = Some 0 ->
  isoformat t = isoformat (replace_tzinfo t None) ++ lit "+00:00".
Proof.
  intros Htz. unfold isoformat. rewrite Htz.
  cbn [replace_tzinfo year month day hour minute second microsecond tzinfo].
  change (format_offset (Some 0)) with (lit "+00:00").
  change (format_offset None) with (@nil ascii).
  rewrite app_nil_r. rewrite <- !app_assoc. reflexivity.
Qed.

Lemma fromisoformat_utc_text (t : datetime) :
  valid_datetime t = true -> tzinfo t = Some 0 ->
  fromisoformat (replace_Z (utc_text t)) = Some t.
Proof.
  intros Hv Htz. unfold utc_text. rewrite replace_Z_app.
  rewrite (replace_Z_absent _ (isoformat_naive_no_Z t)).
  change (replace_Z (lit "Z")) with (lit "+00:00").
  rewrite <- (isoformat_utc t Htz). apply fromisoformat_isoformat. exact Hv.
Qed.

Section ProviderTheorems.

Variable local_utcoffset : datetime -> timedelta.

Lemma get_api_data_some (reply : option response) (t : datetime)
    (p : option float) (log : list provider_event) :
  get_api_data local_utcoffset reply = (Some (t, p), log) ->
  log = [HttpGet]
  /\ exists res data s parsed,
      reply = Some res /\ status_code res = 200 /\ json res = Some data
      /\ timestamp data = Some s /\ pressure data = p
      /\ fromisoformat (replace_Z s) = Some parsed
      /\ astimezone local_utcoffset JST parsed = Some t.
Proof.
  unfold get_api_data. destruct reply as [res|]; [|discriminate].
  destruct (Z.eqb_spec (status_code res) 200) as [Hst|Hst]; cbn [negb];
    [|discriminate].
  destruct (json res) as [data|] eqn:Hjson; [|discriminate].
  destruct (timestamp data) as [s|] eqn:Hts; [|discriminate].
  destruct (fromisoformat (replace_Z s)) as [parsed|] eqn:Hparse; [|discriminate].
  destruct (astimezone local_utcoffset JST parsed) as [jst|] eqn:Hconv;
    [|discriminate].
  intros H. injection H as Ht Hp Hlog. subst.
  split; [reflexivity|]. exists res, data, s, parsed. repeat split; auto.
Qed.

(** X4: a status-200 answer whose timestamp is the [Z]-suffixed text of a
    UTC datetime of the years 2 to 9998 makes [get_api_data] return that
    instant in JST, with the payload's pressure, and print nothing. *)
Theorem get_api_data_reads_utc_text (u : datetime) (p : option float) :
  valid_datetime u = true ->
  tzinfo u = Some 0 ->
  2 <= year u <= 9998 ->
  exists t,
    get_api_data local_utcoffset
      (Some (mkresponse 200 (Some (mkpayload (Some (utc_text u)) p))))
    = (Some (t, p), [HttpGet])
    /\ tzinfo t = Some JST
    /\ datetime_sub t u = Some 0
    /\ valid_datetime t = true.
Proof.
  intros Hv Htz Hy.
  destruct (astimezone_defined local_utcoffset JST 0 u Hv Htz eq_refl Hy)
    as [t Hconv].
  exists t. unfold get_api_data.
  cbn [status_code json timestamp pressure Z.eqb Pos.eqb negb].
  rewrite (fromisoformat_utc_text u Hv Htz), Hconv.
  split; [reflexivity|].
  exact (astimezone_aware local_utcoffset JST 0 u t Htz eq_refl Hconv).
Qed.

Lemma first_record_head (result : list flux_table) :
  match first_record result with
  | None => List.concat result = []
  | Some record => exists rest, List.concat result = record :: rest
  end.
Proof.
  induction result as [|table rest IH]; [reflexivity|].
  destruct table as [|record table]; simpl.
  - exact IH.
  - eexists. reflexivity.
Qed.

Lemma influx_sample (result : list flux_table) (t : datetime) (p : option float) :
  get_bme680_data_from_influxdb local_utcoffset result = Sample t p ->
  exists record rest,
    List.concat result = record :: rest
    /\ p = get_value record
    /\ astimezone local_utcoffset JST (get_time record) = Some t.
Proof.
  unfold get_bme680_data_from_influxdb.
  pose proof (first_record_head result) as Hfirst.
  destruct (first_record result) as [record|]; [|discriminate].
  destruct Hfirst as [rest Hrest].
  destruct (astimezone local_utcoffset JST (get_time record)) as [t'|] eqn:Hconv;
    [|discriminate].
  intros H. injection H as Ht Hp. subst. exists record, rest. auto.
Qed.

(** X5: [get_bme680_data_from_influxdb] looks at the first record of the
    query result only, in the order of the tables: without any record it
    returns [None]; otherwise it returns that record's value and its time
    as a valid datetime in JST (the same instant, for an aware time), or the
    conversion overflows. *)
Theorem influx_first_record (result : list flux_table) :
  match get_bme680_data_from_influxdb local_utcoffset result with
  | NoSample => List.concat result = []
  | Sample t p =>
      exists record rest,
        List.concat result = record :: rest
        /\ p = get_value record
        /\ tzinfo t = Some JST
        /\ valid_datetime t = true
        /\ (tzinfo (get_time record) <> None ->
            datetime_sub t (get_time record) = Some 0)
  | ConversionOverflow =>
      exists record rest,
        List.concat result = record :: rest
        /\ astimezone local_utcoffset JST (get_time record) = None
  end.
Proof.
  pose proof (first_record_head result) as Hfirst.
  unfold get_bme680_data_from_influxdb.
  destruct (first_record result) as [record|]; [|exact Hfirst].
  destruct Hfirst as [rest Hrest].
  destruct (astimezone local_utcoffset JST (get_time record)) as [t|] eqn:Hconv.
  - exists record, rest.
    destruct (astimezone_spec local_utcoffset JST _ t Hconv) as [Htz [_ [_ Hv]]].
    repeat split; auto.
    intros Haware. destruct (tzinfo (get_time record)) as [off|] eqn:Hoff;
      [|congruence].
    exact (proj1 (proj2 (astimezone_aware local_utcoffset JST off _ t
                           Hoff eq_refl Hconv))).
  - exists record, rest. split; [exact Hrest|exact Hconv].
Qed.

End ProviderTheorems.

(** *** The entry point *)

Lemma first_record_none (result : list flux_table) :
  List.concat result = [] -> first_record result = None.
Proof.
  induction result as [|table rest IH]; [reflexivity|].
  destruct table as [|record table]; simpl; [exact IH|discriminate].
Qed.

Section MainTheorems.

Variable local_utcoffset : datetime -> timedelta.
Variable USER_IDS : list str.
Variable requests_post : str -> message -> Z * str.

Local Abbreviation script := (main local_utcoffset USER_IDS requests_post).

(** X7: after a successful call of the sensor API, a query that raises or
    returns no record stops the script before the evaluation (the latter
    with the [TypeError] of unpacking [None]); the record file stays as it
    was and nothing is pushed. *)
Theorem main_stops_without_past_sample (reply : option response)
    (query : option (list flux_table)) (f : fs) t p log :
  get_api_data local_utcoffset reply = (Some (t, p), log) ->
  query = None \/ (exists result, query = Some result /\ List.concat result = []) ->
  exists outcome,
    script reply query f = (log ++ [InfluxQuery], outcome, mkworld f [])
    /\ (query = None -> outcome = QueryError)
    /\ (query <> None -> outcome = UnpackError).
Proof.
  intros Hapi Hq. unfold main. rewrite Hapi.
  destruct Hq as [->|[result [-> Hempty]]].
  - exists QueryError. repeat split; congruence.
  - unfold get_bme680_data_from_influxdb.
    rewrite (first_record_none result Hempty).
    exists UnpackError. repeat split; congruence.
Qed.

(** X8: whenever the script reaches the evaluation, both times handed to
    [analize_pressure_drop] are valid datetimes in JST, so a decision
    [Suppressed "missing-data"] can only come from a pressure that is
    [None]. *)
Theorem main_evaluates_jst_samples (reply : option response)
    (query : option (list flux_table)) (f : fs) log r w :
  script reply query f = (log, Evaluated r, w) ->
  exists ct cp pt pp,
    tzinfo ct = Some JST /\ valid_datetime ct = true
    /\ tzinfo pt = Some JST /\ valid_datetime pt = true
    /\ analize_pressure_drop USER_IDS requests_post
         (Some ct) cp (Some pt) pp (mkworld f []) = (r, w)
    /\ (r = Ret (Suppressed "missing-data") -> cp = None \/ pp = None).
Proof.
  assert (Hmd : forall ct cp pt pp (w0 : world),
             fst (analize_pressure_drop USER_IDS requests_post
                    (Some ct) cp (Some pt) pp w0)
             = Ret (Suppressed "missing-data") ->
             cp = None \/ pp = None).
  { intros ct cp pt pp w0.
    destruct cp as [cp|]; [|now left]. destruct pp as [pp|]; [|now right].
    rewrite evaluate_present. cbv zeta.
    destruct (is_night_hour ct); [discriminate|].
    destruct (cp - pp <? -1.0)%float; [|discriminate].
    destruct (should_notify ct 360 _) as [[[|]|e] w1]; discriminate. }
  unfold main.
  destruct (get_api_data local_utcoffset reply) as [[[ct cp]|] alog] eqn:Hapi;
    [|discriminate].
  destruct query as [result|]; [|discriminate].
  destruct (get_bme680_data_from_influxdb local_utcoffset result)
    as [pt pp| |] eqn:Hinflux; try discriminate.
  intros H. injection H as Hlog Hr Hw. subst log r w.
  destruct (get_api_data_some local_utcoffset reply ct cp alog Hapi)
    as [_ [res [data [s [parsed [_ [_ [_ [_ [_ [_ Hcconv]]]]]]]]]]].
  destruct (influx_sample local_utcoffset result pt pp Hinflux)
    as [record [rest [_ [_ Hpconv]]]].
  destruct (astimezone_spec local_utcoffset JST _ ct Hcconv) as [Hctz [_ [_ Hcv]]].
  destruct (astimezone_spec local_utcoffset JST _ pt Hpconv) as [Hptz [_ [_ Hpv]]].
  exists ct, cp, pt, pp.
  split; [exact Hctz|]. split; [exact (Hcv eq_refl)|].
  split; [exact Hptz|]. split; [exact (Hpv eq_refl)|].
  split; [apply surjective_pairing|apply Hmd].
Qed.

End MainTheorems.

Section EndToEnd.

Variable local_utcoffset : datetime -> timedelta.
Variable USER_IDS : list str.
Variable requests_post : str -> message -> Z * str.

(** X9: end to end, a sensor reading stamped between 15:00 and 21:00 UTC
    (of the years 2 to 9998) is never notified: with both pressures
    present the script decides [Suppressed "night-hours"] whatever they
    are, pushes nothing and leaves the record file as it was. *)
Theorem main_silent_at_night (u : datetime) (cp pp : float)
    (result : list flux_table) (pt : datetime) (f : fs) :
  valid_datetime u = true ->
  tzinfo u = Some 0 ->
  2 <= year u <= 9998 ->
  15 <= hour u < 21 ->
  get_bme680_data_from_influxdb local_utcoffset result = Sample pt (Some pp) ->
  exists w,
    main local_utcoffset USER_IDS requests_post
      (Some (mkresponse 200 (Some (mkpayload (Some (utc_text u)) (Some cp)))))
      (Some result) f
    = ([HttpGet; InfluxQuery], Evaluated (Ret (Suppressed "night-hours")), w)
    /\ file w = f
    /\ sent (out w) = false.
Proof.
  intros Hv Htz Hy Hh Hinflux.
  destruct (astimezone_defined local_utcoffset JST 0 u Hv Htz eq_refl Hy)
    as [t Hconv].
  pose proof (jst_hour_of_utc local_utcoffset u t Hv Htz Hconv) as Hhour.
  assert (Hnight : is_night_hour t = true).
  { unfold is_night_hour. rewrite Hhour.
    apply andb_true_intro. split; [apply Z.leb_le|apply Z.ltb_lt];
      Z.div_mod_to_equations; lia. }
  assert (Hapi : get_api_data local_utcoffset
                   (Some (mkresponse 200
                            (Some (mkpayload (Some (utc_text u)) (Some cp)))))
                 = (Some (t, Some cp), [HttpGet])).
  { unfold get_api_data.
    cbn [status_code json timestamp pressure Z.eqb Pos.eqb negb].
    rewrite (fromisoformat_utc_text u Hv Htz), Hconv. reflexivity. }
  unfold main. rewrite Hapi, Hinflux. rewrite evaluate_present.
  cbv zeta. rewrite Hnight. cbn [fst snd file out app].
  eexists. split; [reflexivity|]. split; reflexivity.
Qed.

End EndToEnd.

(** *** Edge behaviour of the throttle *)

Section ThrottleTheorems.

Variable USER_IDS : list str.
Variable requests_post : str -> message -> Z * str.

Lemma datetime_sub_same_instant (cur l1 l2 : datetime) :
  datetime_sub l1 l2 = Some 0 -> datetime_sub cur l1 = datetime_sub cur l2.
Proof.
  unfold datetime_sub.
  destruct (tzinfo cur), (tzinfo l1), (tzinfo l2); intros H;
    try discriminate; try reflexivity; inversion H; f_equal; lia.
Qed.

(** X13: once the record file holds the text of a valid datetime [u], it
    keeps holding the text of a valid datetime after every run, and the
    recorded instant never moves back before [u]. *)
Theorem record_stays_canonical (u : datetime) (cs : list cycle) (f : fs) :
  Forall (fun c => cycle_wf c = true) cs ->
  holds_since u f ->
  Forall (fun r => holds_since u (file (snd r)))
    (run_cycles USER_IDS requests_post cs f).
Proof.
  revert f. induction cs as [|c cs IH]; intros f Hwf Hinv; [constructor|].
  inversion Hwf as [|? ? Hwc Hwcs]; subst.
  assert (Hnext : holds_since u (file (snd (run_cycle USER_IDS requests_post c f)))).
  { destruct (run_cycle_cases USER_IDS requests_post c f)
      as [[Hf _]|[t [Ht Hadv]]].
    - rewrite Hf. exact Hinv.
    - unfold cycle_wf in Hwc. rewrite Ht in Hwc.
      destruct (advances_holds_since u t _ _ Hwc Hinv Hadv) as [d [_ [_ H]]].
      exact H. }
  cbn [run_cycles]. constructor; [exact Hnext|].
  apply IH; assumption.
Qed.

End ThrottleTheorems.

(** *** Pressures that are not numbers *)

Lemma SFcompare_refl (s : spec_float) :
  s <> S754_nan -> SFcompare s s = Some Eq.
Proof.
  destruct s as [[]|[]| |[] m e]; intros H; try reflexivity; try congruence;
    simpl; rewrite Z.compare_refl;
    change (Pos.compare_cont Eq m m) with (Pos.compare m m);
    rewrite Pos.compare_refl; reflexivity.
Qed.

Lemma is_nan_spec (x : float) : is_nan x = true -> Prim2SF x = S754_nan.
Proof.
  unfold is_nan. rewrite eqb_spec. unfold SFeqb. intros H.
  destruct (Prim2SF x) eqn:E; try reflexivity;
    rewrite SFcompare_refl in H by discriminate; discriminate.
Qed.

Lemma sub_nan_not_less (x y z : float) :
  is_nan x = true \/ is_nan y = true -> (x - y <? z)%float = false.
Proof.
  intros H. rewrite ltb_spec, sub_spec. unfold SF64sub, SFsub.
  destruct H as [H|H]; apply is_nan_spec in H; rewrite H.
  - reflexivity.
  - destruct (Prim2SF x) as [[]|[]| |[] m e]; reflexivity.
Qed.

(** X14: a pressure that is not a number is never reported: when the
    current or the past pressure is NaN, the delta is NaN, the test
    [delta < -1.0] is false, and outside the night hours the decision is
    [NoChange] without the record file being opened. *)
Theorem nan_pressure_no_change (USER_IDS : list str)
    (requests_post : str -> message -> Z * str) cur cp past pp (w : world) :
  is_night_hour cur = false ->
  is_nan cp = true \/ is_nan pp = true ->
  analize_pressure_drop USER_IDS requests_post
    (Some cur) (Some cp) (Some past) (Some pp) w
  = (Ret NoChange,
     mkworld (file w)
       (out w ++ preamble cur cp past pp ++ [Print NoBigChange])).
Proof.
  intros Hday Hnan. rewrite evaluate_present. cbv zeta. rewrite Hday.
  rewrite (sub_nan_not_less cp pp (-1.0)%float Hnan).
  cbn [file out]. rewrite <- app_assoc. reflexivity.
Qed.

(** X15: a datetime without an offset is converted as a time of the
    system's zone: the result denotes the instant that the same wall-clock
    fields denote with the system's offset. *)
Theorem astimezone_naive_is_local (local_utcoffset : datetime -> timedelta)
    (tz : timedelta) (t t' : datetime) :
  tzinfo t = None ->
  astimezone local_utcoffset tz t = Some t' ->
  tzinfo t' = Some tz
  /\ datetime_sub t' (replace_tzinfo t (Some (local_utcoffset t))) = Some 0.
Proof.
  intros Hnaive Hconv.
  destruct (astimezone_spec local_utcoffset tz t t' Hconv) as [Htz [Hw _]].
  unfold own_offset in Hw. rewrite Hnaive in Hw.
  split; [exact Htz|].
  unfold datetime_sub. rewrite Htz. cbn [replace_tzinfo tzinfo].
  rewrite wall_microseconds_replace_tzinfo. f_equal. lia.
Qed.

(** ** The further properties on sample inputs *)

Lemma astimezone_same_instant_witness :
  exists t',
    astimezone sample_zone JST sample_utc = Some t'
    /\ tzinfo t' = Some JST
    /\ datetime_sub t' sample_utc = Some 0
    /\ valid_datetime t' = true.
Proof.
  apply (astimezone_same_instant sample_zone JST 0 sample_utc);
    try reflexivity.
  simpl. lia.
Defined.

Lemma night_window_in_utc_witness :
  hour sample_day = (hour sample_utc + 9) mod 24
  /\ is_night_hour sample_day = (15 <=? hour sample_utc) && (hour sample_utc <? 21).
Proof.
  apply (night_window_in_utc sample_zone sample_utc sample_day); reflexivity.
Defined.

Lemma get_api_data_reads_utc_text_witness :
  exists t,
    get_api_data sample_zone
      (Some (mkresponse 200
               (Some (mkpayload (Some (utc_text sample_utc)) (Some 1010.0%float)))))
    = (Some (t, Some 1010.0%float), [HttpGet])
    /\ tzinfo t = Some JST
    /\ datetime_sub t sample_utc = Some 0
    /\ valid_datetime t = true.
Proof.
  apply (get_api_data_reads_utc_text sample_zone sample_utc (Some 1010.0%float));
    try reflexivity.
  simpl. lia.
Defined.

Lemma main_stops_without_past_sample_witness :
  exists outcome,
    main sample_zone sample_ids sample_post
      (Some sample_reply) (Some sample_empty_result) Missing
    = ([HttpGet] ++ [InfluxQuery], outcome, mkworld Missing [])
    /\ (Some sample_empty_result = None -> outcome = QueryError)
    /\ (Some sample_empty_result <> None -> outcome = UnpackError).
Proof.
  apply (main_stops_without_past_sample sample_zone sample_ids sample_post
           (Some sample_reply) (Some sample_empty_result) Missing sample_day
           (Some 1010.0%float) [HttpGet]).
  - vm_compute. reflexivity.
  - right. exists sample_empty_result. split; reflexivity.
Defined.

Lemma main_evaluates_jst_samples_witness :
  exists ct cp pt pp,
    tzinfo ct = Some JST /\ valid_datetime ct = true
    /\ tzinfo pt = Some JST /\ valid_datetime pt = true
    /\ analize_pressure_drop sample_ids sample_post
         (Some ct) cp (Some pt) pp (mkworld Missing [])
       = (fst sample_evaluation, snd sample_evaluation)
    /\ (fst sample_evaluation = Ret (Suppressed "missing-data") ->
        cp = None \/ pp = None).
Proof.
  destruct (main_evaluates_jst_samples sample_zone sample_ids sample_post
              (Some sample_reply) (Some sample_result) Missing
              [HttpGet; InfluxQuery]
              (fst sample_evaluation) (snd sample_evaluation))
    as [ct [cp [pt [pp H]]]].
  - vm_compute. reflexivity.
  - exists ct, cp, pt, pp. exact H.
Defined.

Lemma main_silent_at_night_witness :
  exists w,
    main sample_zone sample_ids sample_post
      (Some (mkresponse 200
               (Some (mkpayload (Some (utc_text sample_utc_evening))
                        (Some 1000.0%float)))))
      (Some sample_result) Missing
    = ([HttpGet; InfluxQuery], Evaluated (Ret (Suppressed "night-hours")), w)
    /\ file w = Missing
    /\ sent (out w) = false.
Proof.
  apply (main_silent_at_night sample_zone sample_ids sample_post
           sample_utc_evening 1000.0%float 1012.0%float sample_result sample_past
           Missing); try reflexivity.
  - simpl. lia.
  - simpl. lia.
Defined.

Lemma record_stays_canonical_witness :
  Forall (fun r => holds_since sample_day (file (snd r)))
    (run_cycles sample_ids sample_post sample_cycles
       (Present (isoformat sample_day))).
Proof.
  apply (record_stays_canonical sample_ids sample_post sample_day sample_cycles
           (Present (isoformat sample_day))).
  - repeat constructor.
  - exists sample_day, 0.
    split; [reflexivity|]. split; [reflexivity|]. split; [reflexivity|lia].
Defined.

Lemma nan_pressure_no_change_witness :
  analize_pressure_drop sample_ids sample_post
    (Some sample_day) (Some nan) (Some sample_past) (Some 1012.0%float)
    (mkworld Missing [])
  = (Ret NoChange,
     mkworld Missing
       ([] ++ preamble sample_day nan sample_past 1012.0 ++ [Print NoBigChange])).
Proof.
  apply (nan_pressure_no_change sample_ids sample_post sample_day nan
           sample_past 1012.0%float (mkworld Missing [])).
  - reflexivity.
  - left. reflexivity.
Defined.

Lemma astimezone_naive_is_local_witness :
  tzinfo sample_day = Some JST
  /\ datetime_sub sample_day
       (replace_tzinfo sample_naive (Some (sample_zone sample_naive))) = Some 0.
Proof.
  apply (astimezone_naive_is_local sample_zone JST sample_naive sample_day);
    reflexivity.
Defined.

(** ** Properties for every parser and every endpoint *)

(** *** The general program and its instance *)

Lemma generic_should_notify cur thr :
  Generic.should_notify fromisoformat cur thr = should_notify cur thr.
Proof. reflexivity. Qed.

Lemma generic_readLastNotified :
  Generic.readLastNotified fromisoformat = readLastNotified.
Proof. reflexivity. Qed.

Lemma generic_send_loop rp (uids : list str) (msg : message) :
  Generic.send_loop (answering rp) uids msg = send_loop rp uids msg.
Proof. reflexivity. Qed.

Lemma generic_analize_pressure_drop ids rp ct cp pt pp :
  Generic.analize_pressure_drop fromisoformat ids (answering rp) ct cp pt pp
  = analize_pressure_drop ids rp ct cp pt pp.
Proof. reflexivity. Qed.

Lemma generic_get_api_data lo reply :
  Generic.get_api_data fromisoformat lo reply = get_api_data lo reply.
Proof. reflexivity. Qed.

Lemma generic_main ids rp lo :
  Generic.main fromisoformat ids (answering rp) lo = main lo ids rp.
Proof. reflexivity. Qed.

(** *** The two helpers in closed form *)

Lemma posted_app (l1 l2 : list event) : posted (l1 ++ l2) = posted l1 ++ posted l2.
Proof. apply flat_map_app. Qed.

Section GenericHelpers.

Variable parse : str -> option datetime.

Lemma generic_should_notify_unfold (cur : datetime) (thr : Z) (w : world) :
  Generic.should_notify parse cur thr w =
  match file w with
  | Missing =>
      (Ret true, mkworld (Present (isoformat cur))
                   (out w ++ [FileRead; FileWrite (isoformat cur)]))
  | Unreadable => (Raise OSError, mkworld Unreadable (out w ++ [FileRead]))
  | Present raw =>
      let tr := out w ++ [FileRead; Print (Echo (strip raw)); Print EchoType] in
      match Generic.parsed_record parse raw with
      | None =>
          (Ret true, mkworld (Present (isoformat cur))
                       (tr ++ [FileWrite (isoformat cur)]))
      | Some last =>
          match datetime_sub cur last with
          | None => (Raise TypeError, mkworld (Present raw) tr)
          | Some elapsed =>
              if elapsed <? timedelta_minutes thr
              then (Ret false, mkworld (Present raw) tr)
              else (Ret true, mkworld (Present (isoformat cur))
                                (tr ++ [FileWrite (isoformat cur)]))
          end
      end
  end.
Proof.
  destruct w as [f tr].
  unfold Generic.should_notify, Generic.read_last_notify_time,
    Generic.parsed_record.
  destruct f as [|raw|]; run_monad; rewrite <- ?app_assoc; simpl; try reflexivity.
  destruct (is_empty (strip raw)); simpl.
  - rewrite <- app_assoc. reflexivity.
  - destruct (parse (strip raw)) as [last|]; simpl.
    + destruct (datetime_sub cur last) as [d|]; simpl; [|reflexivity].
      destruct (d <? timedelta_minutes thr); simpl; [reflexivity|].
      rewrite <- app_assoc. reflexivity.
    + rewrite <- app_assoc. reflexivity.
Qed.

Lemma generic_parsed_record_some (raw : str) (last : datetime) :
  strip raw <> [] -> parse (strip raw) = Some last ->
  Generic.parsed_record parse raw = Some last.
Proof.
  unfold Generic.parsed_record. destruct (strip raw); simpl; congruence.
Qed.

Lemma generic_should_notify_effects cur thr (w : world) r w1 :
  Generic.should_notify parse cur thr w = (r, w1) ->
  exists ev,
    out w1 = out w ++ ev
    /\ sent ev = false
    /\ (r = Ret true ->
        file w1 = Present (isoformat cur) /\ In (FileWrite (isoformat cur)) ev)
    /\ (r <> Ret true ->
        file w1 = file w /\ forall s, ~ In (FileWrite s) ev).
Proof.
  rewrite generic_should_notify_unfold. destruct w as [f tr]. simpl.
  destruct f as [|raw|]; simpl.
  - intros H; inversion H; subst; clear H. eexists; split; [reflexivity|].
    simpl. repeat split; auto; congruence.
  - destruct (Generic.parsed_record parse raw) as [last|].
    + destruct (datetime_sub cur last) as [d|].
      * destruct (d <? timedelta_minutes thr);
          intros H; inversion H; subst; clear H; simpl.
        -- eexists; split; [reflexivity|]. simpl.
           repeat split; try discriminate; auto.
           intros s [E|[E|[E|[]]]]; discriminate.
        -- rewrite <- app_assoc. eexists; split; [reflexivity|]. simpl.
           repeat split; auto; congruence.
      * intros H; inversion H; subst; clear H; simpl.
        eexists; split; [reflexivity|]. simpl.
        repeat split; try discriminate; auto.
        intros s [E|[E|[E|[]]]]; discriminate.
    + intros H; inversion H; subst; clear H; simpl.
      rewrite <- app_assoc. eexists; split; [reflexivity|]. simpl.
      repeat split; auto; congruence.
  - intros H; inversion H; subst; clear H; simpl.
    eexists; split; [reflexivity|]. simpl.
    repeat split; try discriminate; auto.
    intros s [E|[]]; discriminate.
Qed.

Lemma generic_should_notify_file_only cur thr (w1 w2 : world) :
  file w1 = file w2 ->
  fst (Generic.should_notify parse cur thr w1)
  = fst (Generic.should_notify parse cur thr w2)
  /\ file (snd (Generic.should_notify parse cur thr w1))
     = file (snd (Generic.should_notify parse cur thr w2)).
Proof.
  intros E. rewrite !generic_should_notify_unfold. rewrite E.
  destruct (file w2) as [|raw|]; simpl; auto.
  destruct (Generic.parsed_record parse raw) as [last|]; simpl; auto.
  destruct (datetime_sub cur last) as [d|]; simpl; auto.
  destruct (d <? timedelta_minutes thr); simpl; auto.
Qed.

Variable USER_IDS : list str.
Variable requests_post : endpoint.

Local Abbreviation send_run := (Generic.send_run requests_post).
Local Abbreviation evaluate :=
  (Generic.analize_pressure_drop parse USER_IDS requests_post).

Lemma generic_send_loop_unfold (uids : list str) (msg : message) (w : world) :
  Generic.send_loop requests_post uids msg w
  = (fst (send_run uids msg),
     mkworld (file w) (out w ++ snd (send_run uids msg))).
Proof.
  revert w. induction uids as [|uid rest IH]; intros [f tr].
  - unfold ret. simpl. rewrite app_nil_r. reflexivity.
  - cbn [Generic.send_loop Generic.send_run]. unfold bind.
    destruct (is_empty (strip uid)).
    + unfold ret. apply IH.
    + unfold emit, call, print. cbn [file out].
      destruct (requests_post (strip uid) msg) as [res|e].
      * unfold emit. cbn [file out fst snd]. rewrite IH. cbn [file out fst snd].
        rewrite <- !app_assoc. reflexivity.
      * reflexivity.
Qed.

Lemma send_run_no_write (uids : list str) (msg : message) s :
  ~ In (FileWrite s) (snd (send_run uids msg)).
Proof.
  induction uids as [|uid rest IH]; [intros []|].
  cbn [Generic.send_run]. destruct (is_empty (strip uid)); [exact IH|].
  destruct (requests_post (strip uid) msg) as [res|e]; cbn [snd].
  - intros [H|[H|H]]; [discriminate|discriminate|exact (IH H)].
  - intros [H|[]]; discriminate.
Qed.

(** An exception of [send_message] is the exception of a request it
    issued. *)
Lemma send_run_raise (uids : list str) (msg : message) e :
  fst (send_run uids msg) = Raise e ->
  sent (snd (send_run uids msg)) = true
  /\ exists uid, requests_post uid msg = Raise e.
Proof.
  induction uids as [|uid rest IH]; [discriminate|].
  cbn [Generic.send_run]. destruct (is_empty (strip uid)); [exact IH|].
  destruct (requests_post (strip uid) msg) as [res|e'] eqn:Hpost; cbn [fst snd].
  - intros H. split; [reflexivity|]. exact (proj2 (IH H)).
  - intros H. inversion H; subst. split; [reflexivity|].
    exists (strip uid). exact Hpost.
Qed.

Lemma send_run_recipients (uids : list str) (msg : message) :
  (forall uid text, In (Post uid text) (snd (send_run uids msg)) -> text = msg)
  /\ match fst (send_run uids msg) with
     | Ret _ =>
         posted (snd (send_run uids msg)) = recipients uids
         /\ Forall (answered requests_post msg) (recipients uids)
     | Raise e =>
         exists before uid after,
           recipients uids = before ++ uid :: after
           /\ posted (snd (send_run uids msg)) = before ++ [uid]
           /\ requests_post uid msg = Raise e
           /\ Forall (answered requests_post msg) before
     end.
Proof.
  induction uids as [|uid rest [IH1 IH2]].
  - split; [intros ? ? []|]. split; [reflexivity|constructor].
  - unfold recipients in *. cbn [Generic.send_run map filter].
    destruct (is_empty (strip uid)); cbn [negb]; [split; assumption|].
    destruct (requests_post (strip uid) msg) as [res|e] eqn:Hpost; cbn [fst snd].
    + split.
      * intros u text [E|[E|H]]; [congruence|discriminate|exact (IH1 u text H)].
      * destruct (fst (send_run rest msg)) as [u|e].
        -- destruct IH2 as [Hp Ha]. split.
           ++ cbn [posted flat_map app]. f_equal. exact Hp.
           ++ constructor; [exists res; exact Hpost|exact Ha].
        -- destruct IH2 as [before [u [after [Hr [Hp [He Ha]]]]]].
           exists (strip uid :: before), u, after. split; [|split; [|split]].
           ++ rewrite Hr. reflexivity.
           ++ cbn [posted flat_map app]. f_equal. exact Hp.
           ++ exact He.
           ++ constructor; [exists res; exact Hpost|exact Ha].
    + split.
      * intros u text [E|[]]. congruence.
      * exists [], (strip uid), (filter (fun uid0 => negb (is_empty uid0)) (map strip rest)).
        split; [reflexivity|]. split; [reflexivity|]. split; [exact Hpost|constructor].
Qed.

Lemma generic_evaluate_present cur cp past pp (w : world) :
  evaluate (Some cur) (Some cp) (Some past) (Some pp) w =
  let w0 := mkworld (file w) (out w ++ preamble cur cp past pp) in
  if is_night_hour cur then
    (Ret (Suppressed "night-hours"), mkworld (file w) (out w0 ++ [Print NightSkip]))
  else if (cp - pp <? -1.0)%float then
    match Generic.should_notify parse cur 360 w0 with
    | (Ret true, w1) =>
        (match fst (send_run USER_IDS (DropAlert cp)) with
         | Ret _ => Ret (Notify (DropAlert cp))
         | Raise e => Raise e
         end,
         mkworld (file w1) (out w1 ++ snd (send_run USER_IDS (DropAlert cp))))
    | (Ret false, w1) =>
        (Ret (Suppressed "cooldown-active"),
         mkworld (file w1) (out w1 ++ [Print CooldownSkip]))
    | (Raise e, w1) => (Raise e, w1)
    end
  else (Ret NoChange, mkworld (file w) (out w0 ++ [Print NoBigChange])).
Proof.
  destruct w as [f tr].
  unfold Generic.analize_pressure_drop, preamble, bind, print, emit, ret. simpl.
  rewrite <- !app_assoc. simpl.
  destruct (is_night_hour cur);
    [simpl; rewrite <- ?app_assoc; reflexivity|].
  destruct (cp - pp <? -1.0)%float;
    [|simpl; rewrite <- ?app_assoc; reflexivity].
  destruct (Generic.should_notify parse cur 360 _) as [[[|]|e] w1];
    try reflexivity.
  unfold Generic.send_message. rewrite generic_send_loop_unfold.
  destruct (fst (send_run USER_IDS (DropAlert cp))); reflexivity.
Qed.

Lemma generic_evaluate_file_only ct cp pt pp (w1 w2 : world) :
  file w1 = file w2 ->
  fst (evaluate ct cp pt pp w1) = fst (evaluate ct cp pt pp w2)
  /\ file (snd (evaluate ct cp pt pp w1)) = file (snd (evaluate ct cp pt pp w2)).
Proof.
  intros E.
  destruct ct as [cur|]; [|split; [reflexivity|exact E]].
  destruct cp as [cp|]; [|split; [reflexivity|exact E]].
  destruct pt as [past|]; [|split; [reflexivity|exact E]].
  destruct pp as [pp|]; [|split; [reflexivity|exact E]].
  rewrite !generic_evaluate_present. cbv zeta.
  destruct (is_night_hour cur); [split; [reflexivity|exact E]|].
  destruct (cp - pp <? -1.0)%float; [|split; [reflexivity|exact E]].
  destruct (generic_should_notify_file_only cur 360
              (mkworld (file w1) (out w1 ++ preamble cur cp past pp))
              (mkworld (file w2) (out w2 ++ preamble cur cp past pp)) E)
    as [H1 H2].
  destruct (Generic.should_notify parse cur 360
              (mkworld (file w1) (out w1 ++ preamble cur cp past pp))) as [r1 v1].
  destruct (Generic.should_notify parse cur 360
              (mkworld (file w2) (out w2 ++ preamble cur cp past pp))) as [r2 v2].
  simpl in H1, H2. subst r2.
  destruct r1 as [[|]|e]; simpl; auto.
Qed.

End GenericHelpers.

(** An evaluation has one of two shapes.  Either it ends before
    [send_message]: then it writes nothing, pushes nothing, does not
    return [Notify], and the endpoint plays no part.  Or [should_notify]
    returned [True]: then the current time was written to the record
    file, and [send_message] decides how the evaluation ends. *)
Lemma generic_evaluate_shapes parse ids ct cp pt pp (w : world) :
  (exists r new,
      (forall s, ~ In (FileWrite s) new)
      /\ sent new = false
      /\ (forall text, r <> Ret (Notify text))
      /\ forall post : endpoint,
           Generic.analize_pressure_drop parse ids post ct cp pt pp w
           = (r, mkworld (file w) (out w ++ new)))
  \/ (exists cur p ev,
        ct = Some cur /\ cp = Some p
        /\ In (FileWrite (isoformat cur)) ev
        /\ forall post : endpoint,
             Generic.analize_pressure_drop parse ids post ct cp pt pp w
             = (match fst (Generic.send_run post ids (DropAlert p)) with
                | Ret _ => Ret (Notify (DropAlert p))
                | Raise e => Raise e
                end,
                mkworld (Present (isoformat cur))
                  (out w ++ ev ++ snd (Generic.send_run post ids (DropAlert p))))).
Proof.
  assert (Hmiss : forall l,
             (forall post : endpoint,
                 Generic.analize_pressure_drop parse ids post ct cp pt pp w
                 = (Ret (Suppressed "missing-data"),
                    mkworld (file w) (out w ++ [Print l]))) ->
             exists r new,
               (forall s, ~ In (FileWrite s) new)
               /\ sent new = false
               /\ (forall text, r <> Ret (Notify text))
               /\ forall post : endpoint,
                    Generic.analize_pressure_drop parse ids post ct cp pt pp w
                    = (r, mkworld (file w) (out w ++ new))).
  { intros l H. exists (Ret (Suppressed "missing-data")), [Print l].
    split; [intros s [E|[]]; discriminate|]. split; [reflexivity|].
    split; [discriminate|exact H]. }
  destruct ct as [cur|];
    [|left; apply (Hmiss ErrCurrentNone); intros post; destruct w; reflexivity].
  destruct cp as [p|];
    [|left; apply (Hmiss ErrCurrentNone); intros post; destruct w; reflexivity].
  destruct pt as [past|];
    [|left; apply (Hmiss ErrPreviousNone); intros post; destruct w; reflexivity].
  destruct pp as [pp|];
    [|left; apply (Hmiss ErrPreviousNone); intros post; destruct w; reflexivity].
  clear Hmiss.
  destruct (is_night_hour cur) eqn:Hnight.
  { left. exists (Ret (Suppressed "night-hours")),
      (preamble cur p past pp ++ [Print NightSkip]).
    split; [intros s H; simpl in H;
            destruct H as [H|[H|[H|[H|[]]]]]; discriminate|].
    split; [reflexivity|]. split; [discriminate|].
    intros post. rewrite generic_evaluate_present. cbv zeta. rewrite Hnight.
    cbn [file out]. rewrite <- app_assoc. reflexivity. }
  destruct (p - pp <? -1.0)%float eqn:Hdrop.
  2:{ left. exists (Ret NoChange), (preamble cur p past pp ++ [Print NoBigChange]).
      split; [intros s H; simpl in H;
              destruct H as [H|[H|[H|[H|[]]]]]; discriminate|].
      split; [reflexivity|]. split; [discriminate|].
      intros post. rewrite generic_evaluate_present. cbv zeta.
      rewrite Hnight, Hdrop. cbn [file out]. rewrite <- app_assoc. reflexivity. }
  destruct (Generic.should_notify parse cur 360
              (mkworld (file w) (out w ++ preamble cur p past pp)))
    as [r1 w1] eqn:Hsn.
  pose proof (generic_should_notify_effects parse _ _ _ _ _ Hsn)
    as [ev [Hout [Hns [Htrue Hfalse]]]].
  cbn [file out] in Hout, Htrue, Hfalse.
  destruct w1 as [f1 tr1]. cbn [file out] in Hout, Htrue, Hfalse. subst tr1.
  destruct r1 as [[|]|e].
  - right. destruct (Htrue eq_refl) as [Hf Hin]. subst f1.
    exists cur, p, (preamble cur p past pp ++ ev).
    split; [reflexivity|]. split; [reflexivity|].
    split; [apply in_or_app; right; exact Hin|].
    intros post. rewrite generic_evaluate_present. cbv zeta.
    rewrite Hnight, Hdrop, Hsn. cbn [file out]. rewrite <- !app_assoc.
    reflexivity.
  - left. destruct Hfalse as [Hf Hnw]; [discriminate|]. subst f1.
    exists (Ret (Suppressed "cooldown-active")),
      (preamble cur p past pp ++ ev ++ [Print CooldownSkip]).
    split.
    { intros s H. apply in_app_or in H. destruct H as [H|H].
      - simpl in H. destruct H as [H|[H|[H|[]]]]; discriminate.
      - apply in_app_or in H. destruct H as [H|H]; [exact (Hnw s H)|].
        destruct H as [H|[]]; discriminate. }
    split; [rewrite !sent_app, Hns; reflexivity|]. split; [discriminate|].
    intros post. rewrite generic_evaluate_present. cbv zeta.
    rewrite Hnight, Hdrop, Hsn. cbn [file out]. rewrite <- !app_assoc.
    reflexivity.
  - left. destruct Hfalse as [Hf Hnw]; [discriminate|]. subst f1.
    exists (Raise e), (preamble cur p past pp ++ ev).
    split.
    { intros s H. apply in_app_or in H. destruct H as [H|H].
      - simpl in H. destruct H as [H|[H|[H|[]]]]; discriminate.
      - exact (Hnw s H). }
    split; [rewrite !sent_app, Hns; reflexivity|]. split; [discriminate|].
    intros post. rewrite generic_evaluate_present. cbv zeta.
    rewrite Hnight, Hdrop, Hsn. rewrite <- !app_assoc. reflexivity.
Qed.

Section GenericProperties.

Variable parse : str -> option datetime.
Variable USER_IDS : list str.
Variable requests_post : endpoint.

Local Abbreviation send_run := (Generic.send_run requests_post).
Local Abbreviation evaluate :=
  (Generic.analize_pressure_drop parse USER_IDS requests_post).

(** *** The cooldown record *)


(** C9: the outcome depends on the samples and the record file only, so a
    second evaluation on an unchanged record file gives the same; an
    evaluation that does not decide [Notify] (it neither returns [Notify]
    nor issues a push request) writes nothing and leaves the record file as
    it was, and evaluating again gives the same decision, whatever the
    endpoint does then. *)
Theorem evaluation_idempotent ct cp pt pp (w : world) r w' :
  evaluate ct cp pt pp w = (r, w') ->
  (forall w2, file w2 = file w -> fst (evaluate ct cp pt pp w2) = r)
  /\ exists new,
       out w' = out w ++ new
       /\ ((forall text, r <> Ret (Notify text)) ->
           sent new = false ->
           file w' = file w
           /\ (forall s, ~ In (FileWrite s) new)
           /\ forall (again : endpoint) w2,
                file w2 = file w' ->
                fst (Generic.analize_pressure_drop parse USER_IDS again
                       ct cp pt pp w2) = r).
Proof.
  intros Hrun. split.
  { intros w2 E.
    destruct (generic_evaluate_file_only parse USER_IDS requests_post
                ct cp pt pp w2 w E) as [H _].
    rewrite H, Hrun. reflexivity. }
  destruct (generic_evaluate_shapes parse USER_IDS ct cp pt pp w)
    as [[r0 [new [Hnw [_ [_ Hall]]]]]|[cur [p [ev [_ [_ [_ Hall]]]]]]].
  - rewrite Hall in Hrun. inversion Hrun; subst; clear Hrun.
    exists new. split; [reflexivity|]. intros _ _.
    split; [reflexivity|]. split; [exact Hnw|].
    intros again w2 E.
    destruct (generic_evaluate_file_only parse USER_IDS again
                ct cp pt pp w2 w E) as [H _].
    rewrite H, Hall. reflexivity.
  - rewrite Hall in Hrun. inversion Hrun; subst; clear Hrun.
    exists (ev ++ snd (send_run USER_IDS (DropAlert p))).
    split; [reflexivity|]. intros Hnot Hquiet. exfalso.
    destruct (fst (send_run USER_IDS (DropAlert p))) as [u|e] eqn:Hsend.
    + eapply Hnot. reflexivity.
    + destruct (send_run_raise _ _ _ _ Hsend) as [Hs _].
      rewrite sent_app, Hs, orb_true_r in Hquiet. discriminate.
Qed.

(** X11: when the record holds a timestamp without an offset and the
    current time has one (or the other way round), a drop below -1.0 hPa
    outside the night hours ends in a [TypeError]: the difference of the
    two is undefined, the exception is not caught, nothing is pushed and
    the record is left as it was. *)
Theorem mixed_awareness_raises cur cp past pp raw last tr :
  is_night_hour cur = false ->
  (cp - pp <? -1.0)%float = true ->
  strip raw <> [] ->
  parse (strip raw) = Some last ->
  (tzinfo cur = None /\ tzinfo last <> None)
  \/ (tzinfo cur <> None /\ tzinfo last = None) ->
  evaluate (Some cur) (Some cp) (Some past) (Some pp) (mkworld (Present raw) tr)
  = (Raise TypeError,
     mkworld (Present raw)
       (tr ++ preamble cur cp past pp
           ++ [FileRead; Print (Echo (strip raw)); Print EchoType])).
Proof.
  intros Hday Hdrop Hfull Hparse Hmix.
  assert (Hsub : datetime_sub cur last = None).
  { unfold datetime_sub.
    destruct (tzinfo cur), (tzinfo last); try reflexivity;
      destruct Hmix as [[H1 H2]|[H1 H2]]; congruence. }
  rewrite generic_evaluate_present. cbv zeta. rewrite Hday, Hdrop.
  rewrite generic_should_notify_unfold. cbn [file out].
  rewrite (generic_parsed_record_some _ _ _ Hfull Hparse), Hsub. cbv zeta.
  rewrite <- app_assoc. reflexivity.
Qed.

(** X12: the throttle compares instants, not texts: two records whose
    timestamps denote the same instant (written with different offsets,
    say) lead to the same outcome. *)
Theorem decision_depends_on_instant ct cp pt pp raw1 raw2 l1 l2 tr1 tr2 :
  strip raw1 <> [] ->
  strip raw2 <> [] ->
  parse (strip raw1) = Some l1 ->
  parse (strip raw2) = Some l2 ->
  datetime_sub l1 l2 = Some 0 ->
  fst (evaluate ct cp pt pp (mkworld (Present raw1) tr1))
  = fst (evaluate ct cp pt pp (mkworld (Present raw2) tr2)).
Proof.
  intros F1 F2 H1 H2 Hsame.
  destruct ct as [cur|]; [|reflexivity]. destruct cp as [cp|]; [|reflexivity].
  destruct pt as [past|]; [|reflexivity]. destruct pp as [pp|]; [|reflexivity].
  rewrite !generic_evaluate_present. cbv zeta.
  destruct (is_night_hour cur); [reflexivity|].
  destruct (cp - pp <? -1.0)%float; [|reflexivity].
  rewrite !generic_should_notify_unfold. cbn [file out].
  rewrite (generic_parsed_record_some _ _ _ F1 H1),
    (generic_parsed_record_some _ _ _ F2 H2).
  rewrite (datetime_sub_same_instant cur l1 l2 Hsame).
  destruct (datetime_sub cur l2) as [d|]; [|reflexivity].
  cbv zeta. destruct (d <? timedelta_minutes 360); reflexivity.
Qed.

(** *** [send_message] *)

(** X10: [send_message] issues its push requests to the recipients that are
    not blank, to the stripped identifier, in the order of [USER_IDS] and
    each with the given text, and it does not touch the record file.  When
    every request is answered, every recipient gets one; the first request
    that raises ends the function with that exception, and the recipients
    after it get none. *)
Theorem send_message_recipients (msg_text : message) (w : world) :
  exists r new,
    Generic.send_message USER_IDS requests_post msg_text w
    = (r, mkworld (file w) (out w ++ new))
    /\ (forall uid text, In (Post uid text) new -> text = msg_text)
    /\ match r with
       | Ret _ =>
           posted new = recipients USER_IDS
           /\ Forall (answered requests_post msg_text) (recipients USER_IDS)
       | Raise e =>
           exists before uid after,
             recipients USER_IDS = before ++ uid :: after
             /\ posted new = before ++ [uid]
             /\ requests_post uid msg_text = Raise e
             /\ Forall (answered requests_post msg_text) before
       end.
Proof.
  exists (fst (send_run USER_IDS msg_text)), (snd (send_run USER_IDS msg_text)).
  split; [apply generic_send_loop_unfold|].
  exact (send_run_recipients requests_post USER_IDS msg_text).
Qed.

(** *** [get_api_data] and the entry point *)

Variable local_utcoffset : datetime -> timedelta.

Lemma generic_get_api_data_some (reply : option response) (t : datetime)
    (p : option float) (log : list provider_event) :
  Generic.get_api_data parse local_utcoffset reply = (Some (t, p), log) ->
  log = [HttpGet]
  /\ exists res data s parsed,
      reply = Some res /\ status_code res = 200 /\ json res = Some data
      /\ timestamp data = Some s /\ pressure data = p
      /\ parse (replace_Z s) = Some parsed
      /\ astimezone local_utcoffset JST parsed = Some t.
Proof.
  unfold Generic.get_api_data. destruct reply as [res|]; [|discriminate].
  destruct (Z.eqb_spec (status_code res) 200) as [Hst|Hst]; cbn [negb];
    [|discriminate].
  destruct (json res) as [data|] eqn:Hjson; [|discriminate].
  destruct (timestamp data) as [s|] eqn:Hts; [|discriminate].
  destruct (parse (replace_Z s)) as [parsed|] eqn:Hparse; [|discriminate].
  destruct (astimezone local_utcoffset JST parsed) as [jst|] eqn:Hconv;
    [|discriminate].
  intros H. injection H as Ht Hp Hlog. subst.
  split; [reflexivity|]. exists res, data, s, parsed. repeat split; auto.
Qed.

(** X3: whenever [get_api_data] returns a tuple, the answer had status 200
    and a timestamp text that the parser accepts, nothing was printed, the
    pressure is the payload's (possibly [None]), and the time is a valid
    datetime in JST; it is the instant of the parsed timestamp when that is
    aware. *)
Theorem get_api_data_returns_jst (reply : option response) (t : datetime)
    (p : option float) (log : list provider_event) :
  Generic.get_api_data parse local_utcoffset reply = (Some (t, p), log) ->
  log = [HttpGet]
  /\ tzinfo t = Some JST
  /\ valid_datetime t = true
  /\ exists res data s parsed,
      reply = Some res /\ status_code res = 200 /\ json res = Some data
      /\ timestamp data = Some s /\ pressure data = p
      /\ parse (replace_Z s) = Some parsed
      /\ (tzinfo parsed <> None -> datetime_sub t parsed = Some 0).
Proof.
  intros Hapi.
  destruct (generic_get_api_data_some reply t p log Hapi)
    as [Hlog [res [data [s [parsed [Hr [Hst [Hj [Hts [Hp [Hparse Hconv]]]]]]]]]]].
  destruct (astimezone_spec local_utcoffset JST parsed t Hconv)
    as [Htz [_ [_ Hv]]].
  split; [exact Hlog|]. split; [exact Htz|]. split; [exact (Hv eq_refl)|].
  exists res, data, s, parsed. repeat split; auto.
  intros Haware. destruct (tzinfo parsed) as [off|] eqn:Hoff; [|congruence].
  exact (proj1 (proj2 (astimezone_aware local_utcoffset JST off parsed t
                         Hoff eq_refl Hconv))).
Qed.

Local Abbreviation script :=
  (Generic.main parse USER_IDS requests_post local_utcoffset).

(** X6: when the request to the sensor API raises, answers with a status
    other than 200, has no usable body, no timestamp text, or a text that
    the parser rejects, the script stops with the [TypeError] of unpacking
    [None]: the database is not queried, nothing is evaluated, and the
    record file stays as it was. *)
Theorem main_stops_without_current_sample (reply : option response)
    (query : option (list flux_table)) (f : fs) :
  reply = None
  \/ (exists res, reply = Some res
        /\ (status_code res <> 200
            \/ json res = None
            \/ exists data, json res = Some data
                 /\ (timestamp data = None
                     \/ exists s, timestamp data = Some s
                          /\ parse (replace_Z s) = None))) ->
  exists log,
    script reply query f = (log, UnpackError, mkworld f [])
    /\ In HttpGet log
    /\ ~ In InfluxQuery log.
Proof.
  assert (Hno : forall log,
             fst (Generic.get_api_data parse local_utcoffset reply) = None ->
             snd (Generic.get_api_data parse local_utcoffset reply) = log ->
             In HttpGet log -> ~ In InfluxQuery log ->
             exists log', script reply query f = (log', UnpackError, mkworld f [])
                          /\ In HttpGet log' /\ ~ In InfluxQuery log').
  { intros log H1 H2 H3 H4. exists log. unfold Generic.main.
    destruct (Generic.get_api_data parse local_utcoffset reply) as [[[t p]|] log'];
      simpl in H1, H2; [discriminate|]. subst. auto. }
  intros [->|[res [-> H]]].
  - eapply Hno; [reflexivity|reflexivity|now left|].
    intros [E|[E|[]]]; discriminate.
  - unfold Generic.get_api_data in Hno.
    destruct H as [Hst|[Hjson|[data [Hjson [Hts|[s [Hts Hparse]]]]]]].
    + apply Z.eqb_neq in Hst. rewrite Hst in Hno. cbn [negb] in Hno.
      eapply Hno; [reflexivity|reflexivity|now left|].
      intros [E|[E|[E|[]]]]; discriminate.
    + rewrite Hjson in Hno.
      destruct (negb (status_code res =? 200));
        (eapply Hno; [reflexivity|reflexivity|now left|]);
        [intros [E|[E|[E|[]]]]|intros [E|[E|[]]]]; discriminate.
    + rewrite Hjson, Hts in Hno.
      destruct (negb (status_code res =? 200));
        (eapply Hno; [reflexivity|reflexivity|now left|]);
        [intros [E|[E|[E|[]]]]|intros [E|[E|[]]]]; discriminate.
    + rewrite Hjson, Hts, Hparse in Hno.
      destruct (negb (status_code res =? 200));
        (eapply Hno; [reflexivity|reflexivity|now left|]);
        [intros [E|[E|[E|[]]]]|intros [E|[E|[]]]]; discriminate.
Qed.

End GenericProperties.

(** *** The properties on sample inputs *)

(** An endpoint that cannot be reached: the record is written, the first
    request raises, and the second recipient is not tried. *)
Example outage_after_write :
  Generic.analize_pressure_drop fromisoformat sample_ids sample_outage
    (Some sample_day) (Some 1010.0%float) (Some sample_past) (Some 1012.0%float)
    (mkworld Missing [])
  = (Raise OSError,
     mkworld (Present (isoformat sample_day))
       (preamble sample_day 1010.0 sample_past 1012.0
        ++ [FileRead; FileWrite (isoformat sample_day);
            Post (lit "U1") (DropAlert 1010.0)])).
Proof. vm_compute. reflexivity. Qed.


Lemma evaluation_idempotent_witness :
  fst sample_quiet_run = Ret (Suppressed "cooldown-active")
  /\ file (snd sample_quiet_run) = Present (isoformat sample_day)
  /\ fst (Generic.analize_pressure_drop fromisoformat sample_ids sample_outage
            (Some sample_soon) (Some 1008.0%float) (Some sample_past) (Some 1010.0%float)
            (snd sample_quiet_run))
     = fst sample_quiet_run.
Proof.
  split; [reflexivity|].
  destruct (evaluation_idempotent fromisoformat sample_ids sample_outage
              (Some sample_soon) (Some 1008.0%float) (Some sample_past) (Some 1010.0%float)
              (mkworld (Present (isoformat sample_day)) [])
              (fst sample_quiet_run) (snd sample_quiet_run) eq_refl)
    as [_ [new [Hout H]]].
  destruct H as [Hf [_ Hd]].
  - discriminate.
  - cbn [out app] in Hout. rewrite <- Hout. vm_compute. reflexivity.
  - split; [exact Hf|]. apply Hd. reflexivity.
Defined.

Lemma mixed_awareness_raises_witness :
  Generic.analize_pressure_drop fromisoformat sample_ids sample_outage
    (Some sample_day) (Some 1010.0%float) (Some sample_past) (Some 1012.0%float)
    (mkworld (Present (lit "2024-03-05T10:00:00")) [])
  = (Raise TypeError,
     mkworld (Present (lit "2024-03-05T10:00:00"))
       ([] ++ preamble sample_day 1010.0 sample_past 1012.0
           ++ [FileRead; Print (Echo (strip (lit "2024-03-05T10:00:00")));
               Print EchoType])).
Proof.
  apply (mixed_awareness_raises fromisoformat sample_ids sample_outage
           sample_day 1010.0%float
           sample_past 1012.0%float (lit "2024-03-05T10:00:00")
           (mkdatetime 2024 3 5 10 0 0 0 None) []); try reflexivity.
  - discriminate.
  - right. split; [discriminate|reflexivity].
Defined.

Lemma decision_depends_on_instant_witness :
  fst (Generic.analize_pressure_drop fromisoformat sample_ids (answering sample_post)
         (Some sample_day) (Some 1010.0%float) (Some sample_past) (Some 1012.0%float)
         (mkworld (Present (lit "2024-03-05T13:57:09+09:00")) []))
  = fst (Generic.analize_pressure_drop fromisoformat sample_ids (answering sample_post)
           (Some sample_day) (Some 1010.0%float) (Some sample_past) (Some 1012.0%float)
           (mkworld (Present (lit "2024-03-05T04:57:09+00:00")) [])).
Proof.
  apply (decision_depends_on_instant fromisoformat sample_ids (answering sample_post)
           (Some sample_day) (Some 1010.0%float) (Some sample_past) (Some 1012.0%float)
           (lit "2024-03-05T13:57:09+09:00") (lit "2024-03-05T04:57:09+00:00")
           (mkdatetime 2024 3 5 13 57 9 0 (Some JST))
           (mkdatetime 2024 3 5 4 57 9 0 (Some 0)) [] []);
    try reflexivity; discriminate.
Defined.

Lemma get_api_data_returns_jst_witness :
  [HttpGet] = [HttpGet]
  /\ tzinfo sample_day = Some JST
  /\ valid_datetime sample_day = true
  /\ exists res data s parsed,
      Some sample_reply = Some res /\ status_code res = 200 /\ json res = Some data
      /\ timestamp data = Some s /\ pressure data = Some 1010.0%float
      /\ fromisoformat (replace_Z s) = Some parsed
      /\ (tzinfo parsed <> None -> datetime_sub sample_day parsed = Some 0).
Proof.
  apply (get_api_data_returns_jst fromisoformat sample_zone (Some sample_reply)
           sample_day (Some 1010.0%float) [HttpGet]).
  vm_compute. reflexivity.
Defined.

Lemma main_stops_without_current_sample_witness :
  exists log,
    Generic.main fromisoformat sample_ids sample_outage sample_zone
      (Some (mkresponse 503 None)) (Some sample_result) Missing
    = (log, UnpackError, mkworld Missing [])
    /\ In HttpGet log
    /\ ~ In InfluxQuery log.
Proof.
  apply (main_stops_without_current_sample fromisoformat sample_ids sample_outage
           sample_zone (Some (mkresponse 503 None)) (Some sample_result) Missing).
  right. exists (mkresponse 503 None). split; [reflexivity|].
  left. discriminate.
Defined.
